(** * camera_calibration: the image publisher node

    A shallow embedding of [camera_calibration/nodes/image_publisher.py]:
    the two YAML helpers [load_camera_info_from_yaml] and
    [save_camera_info_to_yaml], and the three entry points of
    [SimpleCameraNode] ([__init__], [handle_set_camera_info],
    [timer_callback]), followed by the properties of the camera-info
    life cycle.

    Python objects that the node mutates live in an explicit heap and are
    passed by reference; exceptions are values of [exn] threaded through a
    state-and-error monad that keeps the state reached when the exception
    was raised, as Python does. *)

From Stdlib Require Import ZArith Floats Ascii String.
From stdpp Require Import gmap strings list.

Set Warnings "-register-all".

Local Open Scope string_scope.
Local Open Scope Z_scope.

(** ** Python exceptions *)

(** The exception classes this program can meet. All of them derive from
    [Exception]; the first five derive from [OSError]. *)
Inductive exn_class :=
| FileNotFoundError
| FileExistsError
| NotADirectoryError
| IsADirectoryError
| PermissionError
| YAMLError
| AttributeError
| TypeError
| ValueError
| OverflowError
| ZeroDivisionError
| AssertionError
| RecursionError
| RuntimeError.

Record exn := Exn { exn_class_of : exn_class; exn_str : string }.

Definition is_OSError (e : exn) : bool :=
  match exn_class_of e with
  | FileNotFoundError | FileExistsError | NotADirectoryError
  | IsADirectoryError | PermissionError => true
  | _ => false
  end.

Definition is_FileExistsError (e : exn) : bool :=
  match exn_class_of e with
  | FileExistsError => true
  | _ => false
  end.

Inductive result (A : Type) :=
| Ok (a : A)
| Raise (e : exn).
Arguments Ok {A} a.
Arguments Raise {A} e.

(** ** A state monad with exceptions

    [M St A] is a computation over a state [St] that returns an [A] or
    raises. The state is returned in both cases: what a Python function
    did before it raised stays done. *)
Definition M (St A : Type) : Type := St -> St * result A.

Definition ret {St A} (a : A) : M St A := fun s => (s, Ok a).

Definition raise {St A} (e : exn) : M St A := fun s => (s, Raise e).

Definition bind {St A B} (c : M St A) (f : A -> M St B) : M St B :=
  fun s =>
    match c s with
    | (s', Ok a) => f a s'
    | (s', Raise e) => (s', Raise e)
    end.

(** [try: body except Exception as e: handler e] *)
Definition try_except {St A} (body : M St A) (handler : exn -> M St A) : M St A :=
  fun s =>
    match body s with
    | (s', Ok a) => (s', Ok a)
    | (s', Raise e) => handler e s'
    end.

Definition get {St} : M St St := fun s => (s, Ok s).

Definition gets {St A} (f : St -> A) : M St A := fun s => (s, Ok (f s)).

Definition modify {St} (f : St -> St) : M St unit := fun s => (f s, Ok tt).

Definition lift_result {St A} (r : result A) : M St A := fun s => (s, r).

Declare Scope py_scope.
Delimit Scope py_scope with py.
Notation "x <- c ;; k" := (bind c (fun x => k))
  (at level 100, c at next level, right associativity) : py_scope.
Notation "c ;;; k" := (bind c (fun _ => k))
  (at level 100, right associativity) : py_scope.

(** The error monad alone, for code that only reads. *)
Definition rbind {A B} (r : result A) (f : A -> result B) : result B :=
  match r with
  | Ok a => f a
  | Raise e => Raise e
  end.

Notation "x <~ c ;; k" := (rbind c (fun x => k))
  (at level 100, c at next level, right associativity) : py_scope.

Local Open Scope py_scope.

(** ** Python values *)

(** Truthiness, as used by [not x], [x or y] and [if x]. *)
Class Truthy (A : Type) := truthy : A -> bool.

#[global] Instance Z_truthy : Truthy Z := fun z => negb (z =? 0).
#[global] Instance string_truthy : Truthy string :=
  fun s => match s with EmptyString => false | String _ _ => true end.
#[global] Instance list_truthy {A} : Truthy (list A) :=
  fun l => match l with [] => false | _ :: _ => true end.

(** [a or b] on two values of one type. *)
Definition py_or {A} `{Truthy A} (a b : A) : A := if truthy a then a else b.

(** The values [yaml.safe_load] builds and [yaml.safe_dump] accepts.
    Mapping keys are strings, the only keys this program looks up. *)
Inductive pyval :=
| VNone
| VBool (b : bool)
| VInt (z : Z)
| VFloat (f : float)
| VStr (s : string)
| VList (l : list pyval)
| VDict (kv : list (string * pyval)).

Definition type_name (v : pyval) : string :=
  match v with
  | VNone => "NoneType"
  | VBool _ => "bool"
  | VInt _ => "int"
  | VFloat _ => "float"
  | VStr _ => "str"
  | VList _ => "list"
  | VDict _ => "dict"
  end.

Fixpoint assoc (key : string) (kv : list (string * pyval)) : option pyval :=
  match kv with
  | [] => None
  | (k', v) :: rest => if String.eqb key k' then Some v else assoc key rest
  end.

(** [v.get(key, default)]: only a dict has a [get]. *)
Definition py_get (v : pyval) (key : string) (default : pyval) : result pyval :=
  match v with
  | VDict kv => Ok (match assoc key kv with Some x => x | None => default end)
  | _ => Raise (Exn AttributeError
                  ("'" +:+ type_name v +:+ "' object has no attribute 'get'"))
  end.

Fixpoint chars (s : string) : list pyval :=
  match s with
  | EmptyString => []
  | String c rest => VStr (String c EmptyString) :: chars rest
  end.

(** [list(v)]: the elements of a list, the characters of a str, the keys
    of a dict; nothing else here is iterable. *)
Definition py_list (v : pyval) : result (list pyval) :=
  match v with
  | VList l => Ok l
  | VStr s => Ok (chars s)
  | VDict kv => Ok (map (fun e => VStr (fst e)) kv)
  | _ => Raise (Exn TypeError ("'" +:+ type_name v +:+ "' object is not iterable"))
  end.

(** [int(f)] on a float truncates toward zero and rejects nan and the
    infinities. *)
Definition int_of_float (f : float) : result Z :=
  match Prim2SF f with
  | S754_zero _ => Ok 0
  | S754_infinity _ =>
      Raise (Exn OverflowError "cannot convert float infinity to integer")
  | S754_nan => Raise (Exn ValueError "cannot convert float NaN to integer")
  | S754_finite sgn m e =>
      let a := if 0 <=? e then Z.shiftl (Z.pos m) e else Z.shiftr (Z.pos m) (- e) in
      Ok (if sgn then - a else a)
  end.

(** [float(z)] on an int: the nearest double, ties to even; an int beyond
    the range of a double raises. *)
Definition float_of_int (z : Z) : result float :=
  let f := SF2Prim (binary_normalize prec emax z 0 false) in
  if is_infinity f
  then Raise (Exn OverflowError "int too large to convert to float")
  else Ok f.

(** [z / f] with an int on the left and a float on the right. *)
Definition int_truediv_float (z : Z) (f : float) : result float :=
  x <~ float_of_int z ;;
  if PrimFloat.eqb f 0%float
  then Raise (Exn ZeroDivisionError "float division by zero")
  else Ok (PrimFloat.div x f).

(** [f1 / f2] on two floats. *)
Definition float_truediv (f1 f2 : float) : result float :=
  if PrimFloat.eqb f2 0%float
  then Raise (Exn ZeroDivisionError "float division by zero")
  else Ok (PrimFloat.div f1 f2).

(** The part of the built-in [int] that parses a string is not modelled:
    it is taken as given. *)
Class Builtins := { int_of_str : string -> result Z }.

Section PyInt.
Context `{Builtins}.

(** [int(v)] *)
Definition py_int (v : pyval) : result Z :=
  match v with
  | VInt z => Ok z
  | VBool b => Ok (if b then 1 else 0)
  | VFloat f => int_of_float f
  | VStr s => int_of_str s
  | _ => Raise (Exn TypeError
                  ("int() argument must be a string, a bytes-like object or a real number, not '"
                     +:+ type_name v +:+ "'"))
  end.
End PyInt.

(** ** Strings and POSIX paths *)

Definition is_sep (c : ascii) : bool := Ascii.eqb c "/"%char.

Fixpoint all_sep (s : string) : bool :=
  match s with
  | EmptyString => true
  | String c rest => is_sep c && all_sep rest
  end.

(** [s.rstrip('/')] *)
Fixpoint rstrip_sep (s : string) : string :=
  match s with
  | EmptyString => EmptyString
  | String c rest =>
      match rstrip_sep rest with
      | EmptyString => if is_sep c then EmptyString else String c EmptyString
      | rest' => String c rest'
      end
  end.

(** [s.lstrip('/')] *)
Fixpoint lstrip_sep (s : string) : string :=
  match s with
  | EmptyString => EmptyString
  | String c rest => if is_sep c then lstrip_sep rest else s
  end.

(** [s.strip('/')] *)
Definition strip_sep (s : string) : string := rstrip_sep (lstrip_sep s).

(** [s[n:]] *)
Fixpoint drop_chars (n : nat) (s : string) : string :=
  match n, s with
  | O, _ => s
  | S n', String _ rest => drop_chars n' rest
  | S _, EmptyString => EmptyString
  end.

(** [s.endswith('/')] *)
Fixpoint ends_with_sep (s : string) : bool :=
  match s with
  | EmptyString => false
  | String c EmptyString => is_sep c
  | String _ rest => ends_with_sep rest
  end.

(** [(p[:i], p[i:])] for [i = p.rfind('/') + 1]: the cut after the last
    separator, or [None] when [p] has no separator ([i = 0]). *)
Fixpoint cut_after_last_sep (p : string) : option (string * string) :=
  match p with
  | EmptyString => None
  | String c rest =>
      match cut_after_last_sep rest with
      | Some (h, t) => Some (String c h, t)
      | None => if is_sep c then Some (String c EmptyString, rest) else None
      end
  end.

(** [posixpath.split] *)
Definition posix_split (p : string) : string * string :=
  let '(head, tail) :=
    match cut_after_last_sep p with
    | Some ht => ht
    | None => (EmptyString, p)
    end in
  let head := if truthy head && negb (all_sep head) then rstrip_sep head else head in
  (head, tail).

(** [posixpath.dirname] *)
Definition dirname (p : string) : string := fst (posix_split p).

(** [posixpath.join(a, b)] *)
Definition posix_join (a b : string) : string :=
  if String.prefix "/" b then b
  else if negb (truthy a) || ends_with_sep a then a +:+ b
  else a +:+ "/" +:+ b.

(** ** The file system

    Paths are taken as they are written: a path names the node stored
    under that very string, the empty directory part of a relative name is
    the working directory, and a path made of separators only is the root.
    Links, [.] and [..] are not resolved. A file holds either text that
    [yaml.safe_load] rejects or the document it parses to; an empty file
    parses to [None]. Entries listed in [readonly] refuse writing: a
    directory refuses new entries, a file refuses to be opened for
    writing. *)
Inductive content :=
| Unparseable
| Parsed (v : pyval).

Inductive fnode :=
| Dir
| File (c : content).

Record filesystem := Filesystem {
  nodes : gmap string fnode;
  readonly : gset string
}.

Definition lookup_path (fs : filesystem) (p : string) : option fnode :=
  if negb (truthy p) then None
  else if all_sep p then Some Dir
  else nodes fs !! p.

(** [os.path.exists] *)
Definition path_exists (fs : filesystem) (p : string) : bool :=
  match lookup_path fs p with
  | Some _ => true
  | None => false
  end.

(** [os.path.isdir] *)
Definition path_isdir (fs : filesystem) (p : string) : bool :=
  match lookup_path fs p with
  | Some Dir => true
  | _ => false
  end.

Definition quoted (p : string) : string := "'" +:+ p +:+ "'".

Definition ENOENT (p : string) : exn :=
  Exn FileNotFoundError ("[Errno 2] No such file or directory: " +:+ quoted p).
Definition EEXIST (p : string) : exn :=
  Exn FileExistsError ("[Errno 17] File exists: " +:+ quoted p).
Definition ENOTDIR (p : string) : exn :=
  Exn NotADirectoryError ("[Errno 20] Not a directory: " +:+ quoted p).
Definition EISDIR (p : string) : exn :=
  Exn IsADirectoryError ("[Errno 21] Is a directory: " +:+ quoted p).
Definition EACCES (p : string) : exn :=
  Exn PermissionError ("[Errno 13] Permission denied: " +:+ quoted p).

(** Whether a new entry [p] may be made in its directory. *)
Definition check_parent (fs : filesystem) (p : string) : result unit :=
  let parent := dirname p in
  match (if truthy parent then lookup_path fs parent else Some Dir) with
  | None => Raise (ENOENT p)
  | Some (File _) => Raise (ENOTDIR p)
  | Some Dir => if bool_decide (parent ∈ readonly fs) then Raise (EACCES p) else Ok tt
  end.

Definition store (p : string) (n : fnode) (fs : filesystem) : filesystem :=
  Filesystem (<[p := n]> (nodes fs)) (readonly fs).

(** [os.mkdir] *)
Definition os_mkdir (p : string) : M filesystem unit :=
  fs <- get ;;
  if negb (truthy p) then raise (ENOENT p)
  else match lookup_path fs p with
       | Some _ => raise (EEXIST p)
       | None => lift_result (check_parent fs p) ;;; modify (store p Dir)
       end.

(** [os.makedirs(name, exist_ok=exist_ok)], after CPython 3.10. The
    recursive call is on a proper prefix of [name], so [fuel] one above
    the length of [name] is never used up. *)
Fixpoint makedirs (fuel : nat) (name : string) (exist_ok : bool) : M filesystem unit :=
  match fuel with
  | O => raise (Exn RecursionError "maximum recursion depth exceeded")
  | S fuel' =>
      let '(head, tail) := posix_split name in
      let '(head, tail) := if negb (truthy tail) then posix_split head else (head, tail) in
      fs <- get ;;
      done <- (if truthy head && truthy tail && negb (path_exists fs head)
               then try_except (makedirs fuel' head exist_ok)
                      (fun e => if is_FileExistsError e then ret tt else raise e) ;;;
                    ret (String.eqb tail ".")
               else ret false) ;;
      if (done : bool) then ret tt
      else try_except (os_mkdir name)
             (fun e =>
                if is_OSError e
                then fs' <- get ;;
                     if negb exist_ok || negb (path_isdir fs' name) then raise e else ret tt
                else raise e)
  end.

Definition os_makedirs (name : string) (exist_ok : bool) : M filesystem unit :=
  makedirs (S (String.length name)) name exist_ok.

(** [open(p, 'w')]: the file is created or emptied. *)
Definition open_w (p : string) : M filesystem unit :=
  fs <- get ;;
  if negb (truthy p) then raise (ENOENT p)
  else match lookup_path fs p with
       | Some Dir => raise (EISDIR p)
       | Some (File _) =>
           if bool_decide (p ∈ readonly fs) then raise (EACCES p)
           else modify (store p (File (Parsed VNone)))
       | None =>
           lift_result (check_parent fs p) ;;; modify (store p (File (Parsed VNone)))
       end.

(** [yaml.safe_dump(data, f)] on the file opened at [p] *)
Definition yaml_safe_dump (data : pyval) (p : string) : M filesystem unit :=
  modify (store p (File (Parsed data))).

(** [open(p, 'r')] and the text read from it *)
Definition open_r (fs : filesystem) (p : string) : result content :=
  match lookup_path fs p with
  | None => Raise (ENOENT p)
  | Some Dir => Raise (EISDIR p)
  | Some (File c) => Ok c
  end.

(** [yaml.safe_load(f)] *)
Definition yaml_safe_load (c : content) : result pyval :=
  match c with
  | Unparseable => Raise (Exn YAMLError "could not parse the document")
  | Parsed v => Ok v
  end.

(** ** Messages *)

(** A number held in a matrix: Python keeps ints and floats apart. *)
Inductive pynum :=
| PInt (z : Z)
| PFloat (f : float).

Definition num_val (n : pynum) : pyval :=
  match n with
  | PInt z => VInt z
  | PFloat f => VFloat f
  end.

Record Time := { sec : Z; nanosec : Z }.

Module sensor_msgs.

Record Header := { stamp : Time; frame_id : string }.

(** Modelled from the spec: the message class [sensor_msgs.msg.CameraInfo]
    is not among the sources. Its fields follow the camera-info record of
    the data model: integer dimensions, sequences of numbers for K, D, R
    and P whose length is not checked, a distortion model tag and, in the
    header, the frame label. A newly made message has zero dimensions,
    empty sequences and empty strings. The header belongs to one message
    only, so it is kept inside the message. The bounds the message class
    puts on a dimension are left out: a dimension is a Python int. *)
Record CameraInfo := {
  header : Header;
  height : Z;
  width : Z;
  distortion_model : string;
  d : list pynum;
  k : list pynum;
  r : list pynum;
  p : list pynum
}.

Definition new_CameraInfo : CameraInfo :=
  {| header := {| stamp := {| sec := 0; nanosec := 0 |}; frame_id := EmptyString |};
     height := 0; width := 0; distortion_model := EmptyString;
     d := []; k := []; r := []; p := [] |}.

Definition set_stamp (x : Time) (ci : CameraInfo) : CameraInfo :=
  {| header := {| stamp := x; frame_id := frame_id (header ci) |};
     height := height ci; width := width ci;
     distortion_model := distortion_model ci;
     d := d ci; k := k ci; r := r ci; p := p ci |}.

Definition set_frame_id (x : string) (ci : CameraInfo) : CameraInfo :=
  {| header := {| stamp := stamp (header ci); frame_id := x |};
     height := height ci; width := width ci;
     distortion_model := distortion_model ci;
     d := d ci; k := k ci; r := r ci; p := p ci |}.

Definition set_height (x : Z) (ci : CameraInfo) : CameraInfo :=
  {| header := header ci; height := x; width := width ci;
     distortion_model := distortion_model ci;
     d := d ci; k := k ci; r := r ci; p := p ci |}.

Definition set_width (x : Z) (ci : CameraInfo) : CameraInfo :=
  {| header := header ci; height := height ci; width := x;
     distortion_model := distortion_model ci;
     d := d ci; k := k ci; r := r ci; p := p ci |}.

Definition set_distortion_model (x : string) (ci : CameraInfo) : CameraInfo :=
  {| header := header ci; height := height ci; width := width ci;
     distortion_model := x;
     d := d ci; k := k ci; r := r ci; p := p ci |}.

Definition set_d (x : list pynum) (ci : CameraInfo) : CameraInfo :=
  {| header := header ci; height := height ci; width := width ci;
     distortion_model := distortion_model ci;
     d := x; k := k ci; r := r ci; p := p ci |}.

Definition set_k (x : list pynum) (ci : CameraInfo) : CameraInfo :=
  {| header := header ci; height := height ci; width := width ci;
     distortion_model := distortion_model ci;
     d := d ci; k := x; r := r ci; p := p ci |}.

Definition set_r (x : list pynum) (ci : CameraInfo) : CameraInfo :=
  {| header := header ci; height := height ci; width := width ci;
     distortion_model := distortion_model ci;
     d := d ci; k := k ci; r := x; p := p ci |}.

Definition set_p (x : list pynum) (ci : CameraInfo) : CameraInfo :=
  {| header := header ci; height := height ci; width := width ci;
     distortion_model := distortion_model ci;
     d := d ci; k := k ci; r := r ci; p := x |}.

(** A pixel buffer, as the capture device hands it over. *)
Definition frame : Type := list Z.

Record Image := { image_header : Header; encoding : string; data : frame }.

End sensor_msgs.

Abbreviation CameraInfo := sensor_msgs.CameraInfo.

(** Assigning to a typed field of a message: a value of another type is
    refused by the message class. *)
Definition mistyped (field : string) (v : pyval) : exn :=
  Exn AssertionError
    ("The '" +:+ field +:+ "' field must not hold a value of type '"
       +:+ type_name v +:+ "'").

Definition as_str (field : string) (v : pyval) : result string :=
  match v with
  | VStr s => Ok s
  | _ => Raise (mistyped field v)
  end.

Fixpoint as_nums (field : string) (l : list pyval) : result (list pynum) :=
  match l with
  | [] => Ok []
  | v :: rest =>
      n <~ match v with
           | VInt z => Ok (PInt z)
           | VFloat f => Ok (PFloat f)
           | _ => Raise (mistyped field v)
           end ;;
      ns <~ as_nums field rest ;;
      Ok (n :: ns)
  end.

(** ** The calibration file *)

(** [data.get(key, {}).get('data', [])] *)
Definition matrix_data (data : pyval) (key : string) : result pyval :=
  m <~ py_get data key (VDict []) ;;
  py_get m "data" (VList []).

Section CalibrationStore.
Context `{Builtins}.

(** [load_camera_info_from_yaml(yaml_path)], lines 14-30. The message
    it returns is new, so it is returned by value. *)
Definition load_camera_info_from_yaml (yaml_path : string) (fs : filesystem)
  : result CameraInfo :=
  if negb (path_exists fs yaml_path)
  then Raise (Exn FileNotFoundError ("Camera info file not found: " +:+ yaml_path))
  else
    f <~ open_r fs yaml_path ;;
    data <~ yaml_safe_load f ;;
    let ci := sensor_msgs.new_CameraInfo in
    v <~ py_get data "image_width" (VInt 0) ;;
    n <~ py_int v ;;
    let ci := sensor_msgs.set_width n ci in
    v <~ py_get data "image_height" (VInt 0) ;;
    n <~ py_int v ;;
    let ci := sensor_msgs.set_height n ci in
    v <~ matrix_data data "camera_matrix" ;;
    l <~ py_list v ;;
    ns <~ as_nums "k" l ;;
    let ci := sensor_msgs.set_k ns ci in
    v <~ matrix_data data "distortion_coefficients" ;;
    l <~ py_list v ;;
    ns <~ as_nums "d" l ;;
    let ci := sensor_msgs.set_d ns ci in
    v <~ matrix_data data "rectification_matrix" ;;
    l <~ py_list v ;;
    ns <~ as_nums "r" l ;;
    let ci := sensor_msgs.set_r ns ci in
    v <~ matrix_data data "projection_matrix" ;;
    l <~ py_list v ;;
    ns <~ as_nums "p" l ;;
    let ci := sensor_msgs.set_p ns ci in
    v <~ py_get data "distortion_model" (VStr "plumb_bob") ;;
    s <~ as_str "distortion_model" v ;;
    let ci := sensor_msgs.set_distortion_model s ci in
    v <~ py_get data "camera_name" (VStr EmptyString) ;;
    s <~ as_str "frame_id" v ;;
    let ci := sensor_msgs.set_frame_id s ci in
    Ok ci.

End CalibrationStore.

Definition identity3x3 : list pynum :=
  [PInt 1; PInt 0; PInt 0; PInt 0; PInt 1; PInt 0; PInt 0; PInt 0; PInt 1].

(** [[0.0]*12] *)
Definition zeros12 : list pynum := repeat (PFloat 0%float) 12.

Definition matrix (rows cols : Z) (l : list pynum) : pyval :=
  VDict [("rows", VInt rows); ("cols", VInt cols); ("data", VList (map num_val l))].

(** The dict [data] that [save_camera_info_to_yaml] builds, lines 34-43 *)
Definition save_data (ci : CameraInfo) (camera_name : string) : pyval :=
  VDict
    [ ("camera_name",
        VStr (py_or (py_or camera_name (sensor_msgs.frame_id (sensor_msgs.header ci)))
                "camera"));
      ("image_width", VInt (sensor_msgs.width ci));
      ("image_height", VInt (sensor_msgs.height ci));
      ("camera_matrix", matrix 3 3 (sensor_msgs.k ci));
      ("distortion_model", VStr (sensor_msgs.distortion_model ci));
      ("distortion_coefficients",
        matrix 1 (Z.of_nat (List.length (sensor_msgs.d ci))) (sensor_msgs.d ci));
      ("rectification_matrix",
        matrix 3 3 (if truthy (sensor_msgs.r ci) then sensor_msgs.r ci else identity3x3));
      ("projection_matrix",
        matrix 3 4 (if truthy (sensor_msgs.p ci) then sensor_msgs.p ci else zeros12)) ].

(** [save_camera_info_to_yaml(ci, yaml_path, camera_name)], lines 32-47 *)
Definition save_camera_info_to_yaml (ci : CameraInfo) (yaml_path : string)
    (camera_name : string) : M filesystem string :=
  let data := save_data ci camera_name in
  os_makedirs (dirname yaml_path) true ;;;
  open_w yaml_path ;;;
  yaml_safe_dump data yaml_path ;;;
  ret yaml_path.

(** ** The node and its surroundings *)

(** A reference to a [CameraInfo] object. *)
Definition loc : Type := nat.

(** Modelled from the spec: the capture device is an external
    collaborator. What the node asks of it is whether it opened and the
    width and height it reports now, [int(cap.get(CAP_PROP_FRAME_WIDTH))]
    and [int(cap.get(CAP_PROP_FRAME_HEIGHT))]: integers, 0 if unknown. *)
Record capture := {
  isOpened : bool;
  frame_width : Z;
  frame_height : Z
}.

Inductive severity := INFO | WARN | ERROR.

(** All that the node acts on: the objects it holds references to, the
    file system, the capture device, what went out on the two topics and
    what was logged (latest first). A message is recorded on its topic
    with the object that was handed to [publish] and its contents then. *)
Record World := {
  heap : gmap loc CameraInfo;
  fs : filesystem;
  cap : capture;
  image_raw : list sensor_msgs.Image;
  camera_info : list (loc * CameraInfo);
  logs : list (severity * string)
}.

Definition with_heap (f : gmap loc CameraInfo -> gmap loc CameraInfo) (w : World) : World :=
  {| heap := f (heap w); fs := fs w; cap := cap w; image_raw := image_raw w;
     camera_info := camera_info w; logs := logs w |}.

Definition with_fs (x : filesystem) (w : World) : World :=
  {| heap := heap w; fs := x; cap := cap w; image_raw := image_raw w;
     camera_info := camera_info w; logs := logs w |}.

Definition with_image_raw (x : list sensor_msgs.Image) (w : World) : World :=
  {| heap := heap w; fs := fs w; cap := cap w; image_raw := x;
     camera_info := camera_info w; logs := logs w |}.

Definition with_camera_info (x : list (loc * CameraInfo)) (w : World) : World :=
  {| heap := heap w; fs := fs w; cap := cap w; image_raw := image_raw w;
     camera_info := x; logs := logs w |}.

Definition with_logs (x : list (severity * string)) (w : World) : World :=
  {| heap := heap w; fs := fs w; cap := cap w; image_raw := image_raw w;
     camera_info := camera_info w; logs := x |}.

(** A file-system action run in the world. *)
Definition in_fs {A} (c : M filesystem A) : M World A :=
  fun w => let '(fs', r) := c (fs w) in (with_fs fs' w, r).

(** A new object, reachable from now on. *)
Definition alloc (ci : CameraInfo) : M World loc :=
  fun w => let l := fresh (dom (heap w)) in (with_heap <[l := ci]> w, Ok l).

(** Reading an object through a reference. Python has no dangling
    reference; one that is not in the heap stands for a request that was
    never made. *)
Definition deref (l : loc) : M World CameraInfo :=
  fun w =>
    match heap w !! l with
    | Some ci => (w, Ok ci)
    | None => (w, Raise (Exn AttributeError "no such object"))
    end.

(** Assigning to a field of the object behind a reference *)
Definition assign (l : loc) (f : CameraInfo -> CameraInfo) : M World unit :=
  ci <- deref l ;; modify (with_heap <[l := f ci]>).

(** [copy.deepcopy]: a new object with the same contents *)
Definition deepcopy (l : loc) : M World loc :=
  ci <- deref l ;; alloc ci.

Definition log (sev : severity) (msg : string) : M World unit :=
  modify (fun w => with_logs ((sev, msg) :: logs w) w).

(** [warn_once]: the message is logged the first time only. *)
Definition warn_once (msg : string) : M World unit :=
  w <- get ;;
  if existsb (fun e => String.eqb (snd e) msg) (logs w) then ret tt else log WARN msg.

(** The parameters of the node, as read after their declaration. *)
Record parameters := {
  param_device : string;
  param_frame_id : string;
  param_camera_info_url : string;
  param_frame_rate : float
}.

(** What the host framework tells the node about itself. *)
Record context := {
  get_namespace : string;
  get_name : string;
  home : string
}.

Record SimpleCameraNode := {
  ctx : context;
  frame_id : string;
  yaml_path : string;
  camera_info_msg : option loc
}.

Definition with_camera_info_msg (x : option loc) (self : SimpleCameraNode) : SimpleCameraNode :=
  {| ctx := ctx self; frame_id := frame_id self; yaml_path := yaml_path self;
     camera_info_msg := x |}.

Record Response := { success : bool; status_message : string }.

(** The node together with its world: the state of the two callbacks. *)
Record System := { self : SimpleCameraNode; world : World }.

Definition in_world {A} (c : M World A) : M System A :=
  fun s => let '(w', r) := c (world s) in ({| self := self s; world := w' |}, r).

Definition set_self (f : SimpleCameraNode -> SimpleCameraNode) : M System unit :=
  modify (fun s => {| self := f (self s); world := world s |}).

(** [get_namespace().strip('/') or get_name()] *)
Definition namespace_or_name (c : context) : string :=
  py_or (strip_sep (get_namespace c)) (get_name c).

(** The storage path chosen in [__init__], lines 64-73. [Path.home()] is
    taken without a trailing separator, as [pathlib] gives it. *)
Definition resolve_yaml_path (c : context) (camera_info_url : string) : string :=
  if String.prefix "file://" camera_info_url
  then drop_chars (String.length "file://") camera_info_url
  else if truthy camera_info_url
  then camera_info_url
  else
    let ns := strip_sep (get_namespace c) in
    let name := if truthy ns then ns else get_name c in
    let default_dir := posix_join (posix_join (home c) ".ros") "camera_info" in
    posix_join default_dir (name +:+ ".yaml").

(** The default record of lines 102-112 for a device reporting [w0] by
    [h0]. *)
Definition default_camera_info (w0 h0 : Z) (frame_id : string) : result CameraInfo :=
  let w := py_or w0 640 in
  let h := py_or h0 480 in
  let ci := sensor_msgs.new_CameraInfo in
  let ci := sensor_msgs.set_width w ci in
  let ci := sensor_msgs.set_height h ci in
  cx <~ int_truediv_float w 2%float ;;
  cy <~ int_truediv_float h 2%float ;;
  let ci := sensor_msgs.set_k
              [PFloat 1; PFloat 0; PFloat cx;
               PFloat 0; PFloat 1; PFloat cy;
               PFloat 0; PFloat 0; PFloat 1] ci in
  let ci := sensor_msgs.set_d [] ci in
  let ci := sensor_msgs.set_r
              [PFloat 1; PFloat 0; PFloat 0;
               PFloat 0; PFloat 1; PFloat 0;
               PFloat 0; PFloat 0; PFloat 1] ci in
  cx <~ int_truediv_float w 2%float ;;
  cy <~ int_truediv_float h 2%float ;;
  let ci := sensor_msgs.set_p
              [PFloat 1; PFloat 0; PFloat cx; PFloat 0;
               PFloat 0; PFloat 1; PFloat cy; PFloat 0;
               PFloat 0; PFloat 0; PFloat 1; PFloat 0] ci in
  let ci := sensor_msgs.set_frame_id frame_id ci in
  Ok ci.

Section Node.
Context `{Builtins}.

(** [SimpleCameraNode.__init__], lines 50-118. Opening the device,
    making the publishers and registering the service and the timer are
    the host's business; what is kept of them is that a device that did
    not open and a zero frame rate end the construction. In the [try]
    of lines 92-98 nothing after the load can raise, so the reference
    is bound once the block is through. *)
Definition __init__ (c : context) (params : parameters) : M World SimpleCameraNode :=
  let device := param_device params in
  let frame_id := param_frame_id params in
  let camera_info_url := param_camera_info_url params in
  let fps := param_frame_rate params in
  let yaml_path := resolve_yaml_path c camera_info_url in
  w <- get ;;
  (if negb (isOpened (cap w))
   then log ERROR ("Failed to open video device: " +:+ device) ;;;
        raise (Exn RuntimeError "Camera open failed")
   else ret tt) ;;;
  w <- get ;;
  camera_info_msg <-
    (if path_exists (fs w) yaml_path
     then try_except
            (ci <- lift_result (load_camera_info_from_yaml yaml_path (fs w)) ;;
             l <- alloc ci ;;
             (if negb (truthy (sensor_msgs.frame_id (sensor_msgs.header ci)))
              then assign l (sensor_msgs.set_frame_id frame_id)
              else ret tt) ;;;
             log INFO ("Loaded camera_info from " +:+ yaml_path) ;;;
             ret (Some l))
            (fun e =>
               log WARN ("Failed to load camera_info: " +:+ exn_str e) ;;;
               ret None)
     else ret None) ;;
  camera_info_msg <-
    match camera_info_msg with
    | Some l => ret (Some l)
    | None =>
        w <- get ;;
        ci <- lift_result
                (default_camera_info (frame_width (cap w)) (frame_height (cap w)) frame_id) ;;
        l <- alloc ci ;;
        log INFO "Using default (uninitalized) CameraInfo until calibrator updates it." ;;;
        ret (Some l)
    end ;;
  lift_result (float_truediv 1%float fps) ;;;
  log INFO ("SimpleCameraNode started. Topics: /camera/image_raw, /camera/camera_info, Service: /camera/set_camera_info. YAML: "
              +:+ yaml_path) ;;;
  ret {| ctx := c; frame_id := frame_id; yaml_path := yaml_path;
         camera_info_msg := camera_info_msg |}.

End Node.

(** [handle_set_camera_info(request, response)], lines 120-140.
    [request] is the reference in [request.camera_info]; the response
    object is filled in either branch and returned. *)
Definition handle_set_camera_info (request : loc) : M System Response :=
  try_except
    (let ci := request in
     s <- get ;;
     x <- in_world (deref ci) ;;
     (if negb (truthy (sensor_msgs.frame_id (sensor_msgs.header x)))
      then in_world (assign ci (sensor_msgs.set_frame_id (frame_id (self s))))
      else ret tt) ;;;
     x <- in_world (deref ci) ;;
     (if negb (truthy (sensor_msgs.width x)) || negb (truthy (sensor_msgs.height x))
      then
        w <- in_world get ;;
        x <- in_world (deref ci) ;;
        in_world (assign ci (sensor_msgs.set_width
                               (py_or (frame_width (cap w)) (sensor_msgs.width x)))) ;;;
        w <- in_world get ;;
        x <- in_world (deref ci) ;;
        in_world (assign ci (sensor_msgs.set_height
                               (py_or (frame_height (cap w)) (sensor_msgs.height x))))
      else ret tt) ;;;
     set_self (with_camera_info_msg (Some ci)) ;;;
     s <- get ;;
     x <- in_world (deref ci) ;;
     in_world (in_fs (save_camera_info_to_yaml x (yaml_path (self s))
                        (namespace_or_name (ctx (self s))))) ;;;
     let status_message := "Camera info saved to " +:+ yaml_path (self s) in
     in_world (log INFO status_message) ;;;
     ret {| success := true; status_message := status_message |})
    (fun e =>
       let status_message := "Error saving camera info: " +:+ exn_str e in
       in_world (log ERROR status_message) ;;;
       ret {| success := false; status_message := status_message |}).

(** [timer_callback], lines 142-158. What [cap.read()] gave, [None] for
    a failed read, and the clock are handed in. *)
Definition timer_callback (read : option sensor_msgs.frame) (now : Time) : M System unit :=
  match read with
  | None =>
      in_world (warn_once "Camera read failed (further warnings suppressed).")
  | Some frame =>
      s <- get ;;
      let stamp := now in
      let ros_image :=
        {| sensor_msgs.image_header :=
             {| sensor_msgs.stamp := stamp; sensor_msgs.frame_id := frame_id (self s) |};
           sensor_msgs.encoding := "bgr8";
           sensor_msgs.data := frame |} in
      in_world (modify (fun w => with_image_raw (ros_image :: image_raw w) w)) ;;;
      match camera_info_msg (self s) with
      | None =>
          raise (Exn AttributeError "'NoneType' object has no attribute 'header'")
      | Some l =>
          ci <- in_world (deepcopy l) ;;
          in_world (assign ci (sensor_msgs.set_stamp stamp)) ;;;
          in_world (assign ci (sensor_msgs.set_frame_id (frame_id (self s)))) ;;;
          x <- in_world (deref ci) ;;
          in_world (modify (fun w => with_camera_info ((ci, x) :: camera_info w) w))
      end
  end.

(** ** The life cycle of the current record *)

Definition with_outside (f : filesystem) (c : capture) (w : World) : World :=
  {| heap := heap w; fs := f; cap := c; image_raw := image_raw w;
     camera_info := camera_info w; logs := logs w |}.

(** What can happen to a running node: the host hands in a request
    object, the service or the timer fires, or the files and the device
    change outside the node. *)
Inductive step : System -> System -> Prop :=
| step_request (s : System) (l : loc) (x : CameraInfo) :
    heap (world s) !! l = None ->
    step s {| self := self s; world := with_heap <[l := x]> (world s) |}
| step_set_camera_info (s : System) (request : loc) :
    step s (fst (handle_set_camera_info request s))
| step_timer (s : System) (read : option sensor_msgs.frame) (now : Time) :
    step s (fst (timer_callback read now s))
| step_outside (s : System) (f : filesystem) (c : capture) :
    step s {| self := self s; world := with_outside f c (world s) |}.

Section Reachable.
Context `{Builtins}.

(** The states of a node whose construction completed. *)
Inductive reachable : System -> Prop :=
| reachable_init (c : context) (params : parameters) (w w' : World)
    (node : SimpleCameraNode) :
    __init__ c params w = (w', Ok node) ->
    reachable {| self := node; world := w' |}
| reachable_step (s s' : System) :
    reachable s -> step s s' -> reachable s'.

End Reachable.

(** A current record exists: the node holds a reference to a live
    object. *)
Definition has_current (s : System) : Prop :=
  exists l x, camera_info_msg (self s) = Some l /\ heap (world s) !! l = Some x.

(** ** What the callbacks leave behind *)

(** Lines 124-125 on the request object *)
Definition fill_frame_id (fid : string) (x : CameraInfo) : CameraInfo :=
  if negb (truthy (sensor_msgs.frame_id (sensor_msgs.header x)))
  then sensor_msgs.set_frame_id fid x
  else x.

(** Lines 126-128 on the request object *)
Definition fill_size (c : capture) (x : CameraInfo) : CameraInfo :=
  if negb (truthy (sensor_msgs.width x)) || negb (truthy (sensor_msgs.height x))
  then sensor_msgs.set_height (py_or (frame_height c) (sensor_msgs.height x))
         (sensor_msgs.set_width (py_or (frame_width c) (sensor_msgs.width x)) x)
  else x.

(** The request record as the handler installs it. *)
Definition patched (s : System) (x : CameraInfo) : CameraInfo :=
  fill_size (cap (world s)) (fill_frame_id (frame_id (self s)) x).

(** The state and the response after [handle_set_camera_info] on a
    request object holding [x]. *)
Definition after_set_camera_info (request : loc) (x : CameraInfo) (s : System)
  : System * result Response :=
  let x' := patched s x in
  let '(fs', r) :=
    save_camera_info_to_yaml x' (yaml_path (self s))
      (namespace_or_name (ctx (self s))) (fs (world s)) in
  let '(sev, ok, msg) :=
    match r with
    | Ok _ => (INFO, true, "Camera info saved to " +:+ yaml_path (self s))
    | Raise e => (ERROR, false, "Error saving camera info: " +:+ exn_str e)
    end in
  ({| self := with_camera_info_msg (Some request) (self s);
      world := {| heap := <[request := x']> (heap (world s));
                  fs := fs';
                  cap := cap (world s);
                  image_raw := image_raw (world s);
                  camera_info := camera_info (world s);
                  logs := (sev, msg) :: logs (world s) |} |},
   Ok {| success := ok; status_message := msg |}).

(** The message that a publish of the record [x] sends. *)
Definition stamped (s : System) (now : Time) (x : CameraInfo) : CameraInfo :=
  sensor_msgs.set_frame_id (frame_id (self s)) (sensor_msgs.set_stamp now x).

(** The state after [timer_callback] on a frame, with [x] current. *)
Definition after_timer_callback (frame : sensor_msgs.frame) (now : Time)
    (x : CameraInfo) (s : System) : System :=
  let copy := fresh (dom (heap (world s))) in
  {| self := self s;
     world :=
       {| heap := <[copy := stamped s now x]> (heap (world s));
          fs := fs (world s);
          cap := cap (world s);
          image_raw :=
            {| sensor_msgs.image_header :=
                 {| sensor_msgs.stamp := now; sensor_msgs.frame_id := frame_id (self s) |};
               sensor_msgs.encoding := "bgr8";
               sensor_msgs.data := frame |} :: image_raw (world s);
          camera_info := (copy, stamped s now x) :: camera_info (world s);
          logs := logs (world s) |} |}.

(** What a load returns for the file that a save of [ci] wrote. *)
Definition stored_view (ci : CameraInfo) (camera_name : string) : CameraInfo :=
  {| sensor_msgs.header :=
       {| sensor_msgs.stamp := {| sec := 0; nanosec := 0 |};
          sensor_msgs.frame_id :=
            py_or (py_or camera_name (sensor_msgs.frame_id (sensor_msgs.header ci)))
              "camera" |};
     sensor_msgs.height := sensor_msgs.height ci;
     sensor_msgs.width := sensor_msgs.width ci;
     sensor_msgs.distortion_model := sensor_msgs.distortion_model ci;
     sensor_msgs.d := sensor_msgs.d ci;
     sensor_msgs.k := sensor_msgs.k ci;
     sensor_msgs.r := if truthy (sensor_msgs.r ci) then sensor_msgs.r ci else identity3x3;
     sensor_msgs.p := if truthy (sensor_msgs.p ci) then sensor_msgs.p ci else zeros12 |}.

(** The reading of the set-request rule under which a dimension that the
    request supplies is kept when only the other one is missing. *)
Definition keeps_supplied_dimension (request : loc) (s : System) : Prop :=
  forall x x',
    heap (world s) !! request = Some x ->
    heap (world (fst (handle_set_camera_info request s))) !! request = Some x' ->
    (sensor_msgs.width x = 0 -> sensor_msgs.height x <> 0 ->
     sensor_msgs.height x' = sensor_msgs.height x) /\
    (sensor_msgs.height x = 0 -> sensor_msgs.width x <> 0 ->
     sensor_msgs.width x' = sensor_msgs.width x).

(** ** Sample surroundings *)

(** An instance of the built-ins for documents that write their integers
    as integers: a string is never parsed. *)
Definition strict_ints : Builtins :=
  {| int_of_str := fun s =>
       Raise (Exn ValueError ("invalid literal for int() with base 10: " +:+ quoted s)) |}.

Definition no_files : filesystem := Filesystem ∅ ∅.

Definition hd_device : capture :=
  {| isOpened := true; frame_width := 1280; frame_height := 720 |}.

Definition root_context : context :=
  {| get_namespace := "/"; get_name := "simple_camera_node"; home := "/home/ros" |}.

Definition default_parameters : parameters :=
  {| param_device := "0"; param_frame_id := "camera_link";
     param_camera_info_url := EmptyString; param_frame_rate := 30%float |}.

Definition new_world : World :=
  {| heap := ∅; fs := no_files; cap := hd_device;
     image_raw := []; camera_info := []; logs := [] |}.

(** The node as [__init__] leaves it in [new_world]; construction
    completes there. *)
Definition started : System :=
  match @__init__ strict_ints root_context default_parameters new_world with
  | (w, Ok node) => {| self := node; world := w |}
  | (w, Raise _) =>
      {| self := {| ctx := root_context; frame_id := EmptyString;
                    yaml_path := EmptyString; camera_info_msg := None |};
         world := w |}
  end.

(** A record with every matrix filled in. *)
Definition calibrated : CameraInfo :=
  {| sensor_msgs.header :=
       {| sensor_msgs.stamp := {| sec := 0; nanosec := 0 |};
          sensor_msgs.frame_id := "left_camera" |};
     sensor_msgs.height := 480;
     sensor_msgs.width := 640;
     sensor_msgs.distortion_model := "plumb_bob";
     sensor_msgs.d := [PFloat 0.5; PFloat 0; PFloat 0; PFloat 0; PFloat 0];
     sensor_msgs.k := [PFloat 500; PFloat 0; PFloat 320;
                       PFloat 0; PFloat 500; PFloat 240;
                       PFloat 0; PFloat 0; PFloat 1];
     sensor_msgs.r := [PFloat 1; PFloat 0; PFloat 0;
                       PFloat 0; PFloat 1; PFloat 0;
                       PFloat 0; PFloat 0; PFloat 1];
     sensor_msgs.p := [PFloat 500; PFloat 0; PFloat 320; PFloat 0;
                       PFloat 0; PFloat 500; PFloat 240; PFloat 0;
                       PFloat 0; PFloat 0; PFloat 1; PFloat 0] |}.

(** A request that supplies a height of 480 and no width. *)
Definition height_only : CameraInfo :=
  sensor_msgs.set_height 480 sensor_msgs.new_CameraInfo.

(** A file system whose only directory refuses new entries. *)
Definition locked_calib : filesystem :=
  Filesystem {[ "/calib" := Dir ]} {[ "/calib" ]}.

(** A calibration file that does not parse. *)
Definition broken_calib : filesystem :=
  Filesystem (<[ "/calib/camera.yaml" := File Unparseable ]> {[ "/calib" := Dir ]}) ∅.

(** A system whose node holds object 0 and is handed request object 1;
    the files are [f] and the storage path is [path]. *)
Definition serving (f : filesystem) (path : string) (request : CameraInfo) : System :=
  {| self := {| ctx := root_context; frame_id := "camera_link";
                yaml_path := path; camera_info_msg := Some 0%nat |};
     world := {| heap := <[1%nat := request]> {[ 0%nat := calibrated ]};
                 fs := f; cap := hd_device;
                 image_raw := []; camera_info := []; logs := [] |} |}.

(** ** Further sample surroundings *)

(** Whether a path has a separator in it. *)
Fixpoint has_sep (s : string) : bool :=
  match s with
  | EmptyString => false
  | String c rest => is_sep c || has_sep rest
  end.

(** The parameters of a node told where its calibration file is. *)
Definition calib_parameters : parameters :=
  {| param_device := "0"; param_frame_id := "camera_link";
     param_camera_info_url := "/calib/camera.yaml"; param_frame_rate := 30%float |}.

Definition world_with (f : filesystem) (c : capture) : World :=
  {| heap := ∅; fs := f; cap := c; image_raw := []; camera_info := []; logs := [] |}.

(** The files after [calibrated] was saved under no camera name. *)
Definition calib_saved : filesystem :=
  fst (save_camera_info_to_yaml calibrated "/calib/camera.yaml" EmptyString no_files).

(** A calibration file holding the empty mapping, and an empty one. *)
Definition calib_empty_mapping : filesystem :=
  Filesystem (<[ "/calib/camera.yaml" := File (Parsed (VDict [])) ]> {[ "/calib" := Dir ]}) ∅.

Definition calib_empty_file : filesystem :=
  Filesystem (<[ "/calib/camera.yaml" := File (Parsed VNone) ]> {[ "/calib" := Dir ]}) ∅.

Definition closed_device : capture :=
  {| isOpened := false; frame_width := 0; frame_height := 0 |}.

(** A request with matrices of the wrong sizes and a frame label of its
    own. *)
Definition odd_request : CameraInfo :=
  {| sensor_msgs.header :=
       {| sensor_msgs.stamp := {| sec := 9; nanosec := 0 |};
          sensor_msgs.frame_id := "left_camera" |};
     sensor_msgs.height := 480;
     sensor_msgs.width := 640;
     sensor_msgs.distortion_model := "equidistant";
     sensor_msgs.d := [PFloat 0.5];
     sensor_msgs.k := [PFloat 500; PInt 0];
     sensor_msgs.r := [];
     sensor_msgs.p := [PFloat 1] |}.

(** ** Running the monad in proofs *)

Ltac run_monad :=
  cbv beta iota delta
    [bind ret raise try_except get gets modify lift_result
     in_world in_fs alloc deref assign deepcopy log set_self
     with_heap with_fs with_logs with_image_raw with_camera_info
     with_camera_info_msg with_outside];
  cbn [self world heap fs cap image_raw camera_info logs
       ctx frame_id yaml_path camera_info_msg negb].

Ltac run_heap :=
  repeat first [ rewrite lookup_insert_eq | progress run_monad ].

Ltac run_heap_with H :=
  repeat first [ rewrite lookup_insert_eq | rewrite H | progress run_monad ].

Ltac msg_fields :=
  cbn [sensor_msgs.header sensor_msgs.stamp sensor_msgs.frame_id
       sensor_msgs.height sensor_msgs.width sensor_msgs.distortion_model
       sensor_msgs.d sensor_msgs.k sensor_msgs.r sensor_msgs.p
       sensor_msgs.set_stamp sensor_msgs.set_frame_id sensor_msgs.set_height
       sensor_msgs.set_width sensor_msgs.set_distortion_model
       sensor_msgs.set_d sensor_msgs.set_k sensor_msgs.set_r sensor_msgs.set_p
       sensor_msgs.new_CameraInfo].

(** ** Examples *)

Example split_absolute : posix_split "/calib/left/camera.yaml" = ("/calib/left", "camera.yaml").
Proof. reflexivity. Qed.

Example split_bare : posix_split "camera.yaml" = (EmptyString, "camera.yaml").
Proof. reflexivity. Qed.

Example split_root : posix_split "/camera.yaml" = ("/", "camera.yaml").
Proof. reflexivity. Qed.

Example strip_namespace : strip_sep "//robot/left/" = "robot/left".
Proof. reflexivity. Qed.

Example default_path :
  resolve_yaml_path root_context EmptyString =
    "/home/ros/.ros/camera_info/simple_camera_node.yaml".
Proof. reflexivity. Qed.

Example url_path :
  resolve_yaml_path root_context "file:///calib/camera.yaml" = "/calib/camera.yaml".
Proof. reflexivity. Qed.

Example int_of_float_truncates :
  int_of_float 640.5%float = Ok 640 /\ int_of_float (-3.5)%float = Ok (-3).
Proof. split; reflexivity. Qed.

Example half_of_odd_width : int_truediv_float 1281 2%float = Ok 640.5%float.
Proof. reflexivity. Qed.

Example save_makes_directories :
  let fs1 := fst (save_camera_info_to_yaml calibrated "/calib/left/camera.yaml"
                    EmptyString no_files) in
  path_isdir fs1 "/calib" = true /\
  path_isdir fs1 "/calib/left" = true /\
  path_exists fs1 "/calib/left/camera.yaml" = true.
Proof. vm_compute. repeat split. Qed.

Example save_into_locked_directory :
  snd (save_camera_info_to_yaml calibrated "/calib/camera.yaml" EmptyString locked_calib) =
    Raise (EACCES "/calib/camera.yaml").
Proof. vm_compute. reflexivity. Qed.

Example broken_file_gives_default :
  match @__init__ strict_ints root_context
          {| param_device := "0"; param_frame_id := "camera_link";
             param_camera_info_url := "/calib/camera.yaml";
             param_frame_rate := 30%float |}
          {| heap := ∅; fs := broken_calib; cap := hd_device;
             image_raw := []; camera_info := []; logs := [] |} with
  | (w, Ok node) =>
      exists ci, camera_info_msg node = Some 0%nat /\
                 heap w !! 0%nat = Some ci /\
                 sensor_msgs.width ci = 1280 /\
                 hd (INFO, EmptyString) (rev (logs w)) =
                   (WARN, "Failed to load camera_info: could not parse the document")
  | (_, Raise _) => False
  end.
Proof. vm_compute. eexists. repeat split. Qed.

Example bare_filename_request_fails :
  snd (handle_set_camera_info 1%nat (serving no_files "camera_info.yaml" calibrated)) =
    Ok {| success := false;
          status_message :=
            "Error saving camera info: [Errno 2] No such file or directory: ''" |}.
Proof. vm_compute. reflexivity. Qed.

Example started_with_default :
  camera_info_msg (self started) = Some 0%nat /\
  (exists ci, heap (world started) !! 0%nat = Some ci /\
              sensor_msgs.width ci = 1280 /\ sensor_msgs.height ci = 720).
Proof. split; [reflexivity|]. eexists. split; [vm_compute; reflexivity|]. split; reflexivity. Qed.

(** ** Truthiness *)

Lemma truthy_Z_false (z : Z) : truthy z = false <-> z = 0.
Proof.
  unfold truthy, Z_truthy. destruct (Z.eqb_spec z 0); cbn [negb]; split; congruence.
Qed.

Lemma truthy_Z_true (z : Z) : truthy z = true <-> z <> 0.
Proof.
  unfold truthy, Z_truthy. destruct (Z.eqb_spec z 0); cbn [negb]; split; congruence.
Qed.

Lemma truthy_string_false (s : string) : truthy s = false <-> s = EmptyString.
Proof. destruct s; cbn; split; congruence. Qed.

Lemma truthy_string_true (s : string) : truthy s = true <-> s <> EmptyString.
Proof. destruct s; cbn; split; congruence. Qed.

Lemma truthy_list_false {A} (l : list A) : truthy l = false <-> l = [].
Proof. destruct l; cbn; split; congruence. Qed.

Lemma truthy_list_true {A} (l : list A) : truthy l = true <-> l <> [].
Proof. destruct l; cbn; split; congruence. Qed.

Lemma py_or_Z (a b : Z) : (a <> 0 -> py_or a b = a) /\ (a = 0 -> py_or a b = b).
Proof.
  unfold py_or. split; intros Ha.
  - apply truthy_Z_true in Ha. by rewrite Ha.
  - apply truthy_Z_false in Ha. by rewrite Ha.
Qed.

(** ** Paths and directories *)

Lemma cut_after_last_sep_length (p h t : string) :
  cut_after_last_sep p = Some (h, t) ->
  (String.length h + String.length t = String.length p)%nat.
Proof.
  revert h t. induction p as [|c p IH]; intros h t; cbn [cut_after_last_sep]; [discriminate|].
  destruct (cut_after_last_sep p) as [[h' t']|].
  - intros [= <- <-]. cbn [String.length]. rewrite <- (IH h' t' eq_refl). lia.
  - destruct (is_sep c); [|discriminate].
    intros [= <- <-]. cbn [String.length]. lia.
Qed.

Lemma rstrip_sep_length (s : string) :
  (String.length (rstrip_sep s) <= String.length s)%nat.
Proof.
  induction s as [|c s IH]; cbn [rstrip_sep String.length]; [lia|].
  destruct (rstrip_sep s) as [|c' s'].
  - destruct (is_sep c); cbn [String.length]; lia.
  - cbn [String.length] in *. lia.
Qed.

Lemma posix_split_length (p h t : string) :
  posix_split p = (h, t) ->
  (String.length h + String.length t <= String.length p)%nat.
Proof.
  unfold posix_split.
  destruct (cut_after_last_sep p) as [[h' t']|] eqn:Hcut.
  - apply cut_after_last_sep_length in Hcut.
    destruct (truthy h' && negb (all_sep h')); intros [= <- <-];
      [pose proof (rstrip_sep_length h')|]; lia.
  - cbn [truthy string_truthy andb]. intros [= <- <-]. cbn [String.length]. lia.
Qed.

Lemma truthy_length (s : string) : truthy s = true -> (0 < String.length s)%nat.
Proof. destruct s; cbn; [discriminate | lia]. Qed.

Lemma os_mkdir_raises (p : string) (fs0 fs1 : filesystem) (e : exn) :
  os_mkdir p fs0 = (fs1, Raise e) -> is_OSError e = true.
Proof.
  unfold os_mkdir, check_parent. run_monad.
  destruct (truthy p); cbn [negb]; [|by intros [= <- <-]].
  destruct (lookup_path fs0 p); [by intros [= <- <-]|].
  destruct (if truthy (dirname p) then lookup_path fs0 (dirname p) else Some Dir)
    as [[|c]|]; try by intros [= <- <-].
  destruct (bool_decide _); [by intros [= <- <-] | discriminate].
Qed.

(** The fuel of [os_makedirs] is never used up. *)
Lemma makedirs_fuel (fuel : nat) :
  forall (name : string) (exist_ok : bool) (fs0 fs1 : filesystem) (e : exn),
    (String.length name < fuel)%nat ->
    makedirs fuel name exist_ok fs0 = (fs1, Raise e) ->
    exn_class_of e <> RecursionError.
Proof.
  induction fuel as [|fuel IH]; intros name exist_ok fs0 fs1 e Hlen; [lia|].
  cbn [makedirs].
  destruct (posix_split name) as [head0 tail0] eqn:Hsplit0.
  apply posix_split_length in Hsplit0.
  destruct (if negb (truthy tail0) then posix_split head0 else (head0, tail0))
    as [head tail] eqn:Hsplit.
  assert (Hhead : (String.length head + String.length tail <= String.length name)%nat).
  { destruct (negb (truthy tail0)).
    - apply posix_split_length in Hsplit. lia.
    - injection Hsplit as <- <-. lia. }
  assert (Hmkdir : forall fsa fsb e',
            try_except (os_mkdir name)
              (fun e0 =>
                 if is_OSError e0
                 then fs' <- get ;;
                      if negb exist_ok || negb (path_isdir fs' name)
                      then raise e0 else ret tt
                 else raise e0) fsa = (fsb, Raise e') ->
            exn_class_of e' <> RecursionError).
  { intros fsa fsb e'. unfold try_except.
    destruct (os_mkdir name fsa) as [fsc [[]|e0]] eqn:Hmk; [discriminate|].
    apply os_mkdir_raises in Hmk. rewrite Hmk. run_monad.
    destruct (negb exist_ok || negb (path_isdir fsc name)); [|discriminate].
    intros [= <- <-]. unfold is_OSError in Hmk.
    destruct (exn_class_of e0); discriminate. }
  unfold bind at 1. unfold get at 1. cbn beta iota.
  destruct (truthy head && truthy tail && negb (path_exists fs0 head)) eqn:Hcond.
  - apply andb_prop in Hcond as [Hcond _]. apply andb_prop in Hcond as [_ Htail].
    apply truthy_length in Htail.
    unfold bind at 1. unfold bind at 1. unfold try_except at 1.
    destruct (makedirs fuel head exist_ok fs0) as [fsa [[]|e0]] eqn:Hrec.
    + unfold ret at 1. unfold ret at 1. cbn beta iota.
      destruct (String.eqb tail "."); [discriminate | apply Hmkdir].
    + apply IH in Hrec; [|lia].
      destruct (is_FileExistsError e0).
      * unfold ret at 1. unfold ret at 1. cbn beta iota.
        destruct (String.eqb tail "."); [discriminate | apply Hmkdir].
      * unfold raise at 1. cbn beta iota. by intros [= <- <-].
  - unfold bind at 1. unfold ret at 1. cbn beta iota. apply Hmkdir.
Qed.

Lemma os_makedirs_no_recursion_error (name : string) (exist_ok : bool)
    (fs0 fs1 : filesystem) (e : exn) :
  os_makedirs name exist_ok fs0 = (fs1, Raise e) ->
  exn_class_of e <> RecursionError.
Proof. apply makedirs_fuel. lia. Qed.

(** ** The callbacks, step by step *)

Lemma handle_set_camera_info_run (s : System) (request : loc) (x : CameraInfo) :
  heap (world s) !! request = Some x ->
  handle_set_camera_info request s = after_set_camera_info request x s.
Proof.
  destruct s as [slf [h f c im ci lg]]. cbn [self world heap].
  intros Hx.
  unfold after_set_camera_info, patched, fill_size, fill_frame_id, handle_set_camera_info.
  run_monad. rewrite Hx.
  destruct (negb (truthy (sensor_msgs.frame_id (sensor_msgs.header x)))) eqn:Hf;
    run_heap_with Hx; msg_fields;
    (destruct (negb (truthy (sensor_msgs.width x)) || negb (truthy (sensor_msgs.height x))) eqn:Hs;
     run_heap_with Hx; rewrite ?insert_insert_eq; msg_fields;
     rewrite ?(insert_id h request x Hx);
     match goal with
     | |- context [save_camera_info_to_yaml ?a ?b ?c ?d] =>
         destruct (save_camera_info_to_yaml a b c d) as [fs' [pth|e]]
     end; reflexivity).
Qed.

Lemma timer_callback_run (s : System) (l : loc) (x : CameraInfo)
    (frame : sensor_msgs.frame) (now : Time) :
  camera_info_msg (self s) = Some l ->
  heap (world s) !! l = Some x ->
  timer_callback (Some frame) now s = (after_timer_callback frame now x s, Ok tt).
Proof.
  destruct s as [slf [h f c im ci lg]]. cbn [self world heap].
  intros Hl Hx. unfold timer_callback, after_timer_callback, stamped.
  run_monad. rewrite Hl. run_heap_with Hx.
  rewrite !insert_insert_eq. reflexivity.
Qed.

Lemma fresh_not_live (h : gmap loc CameraInfo) (l : loc) (x : CameraInfo) :
  h !! l = Some x -> fresh (dom h) <> l.
Proof.
  intros Hx Heq. apply (is_fresh (dom h)). rewrite Heq.
  apply elem_of_dom. eauto.
Qed.

Lemma fresh_unused (h : gmap loc CameraInfo) : h !! fresh (dom h) = None.
Proof. apply not_elem_of_dom, is_fresh. Qed.

(** ** Saving and loading *)

Lemma as_nums_num_val (field : string) (l : list pynum) :
  as_nums field (map num_val l) = Ok l.
Proof.
  induction l as [|n l IH]; [reflexivity|].
  cbn [map as_nums]. rewrite IH. destruct n; reflexivity.
Qed.

Lemma lookup_path_store (fs0 : filesystem) (path : string) (n : fnode) :
  truthy path = true -> all_sep path = false ->
  lookup_path (store path n fs0) path = Some n.
Proof.
  intros Ht Hs. unfold lookup_path, store. rewrite Ht, Hs. cbn [negb nodes].
  apply lookup_insert_eq.
Qed.

Lemma lookup_path_not_dir (fs0 : filesystem) (path : string) :
  lookup_path fs0 path <> Some Dir -> truthy path = true -> all_sep path = false.
Proof.
  unfold lookup_path. intros Hn Ht. rewrite Ht in Hn. cbn [negb] in Hn.
  destruct (all_sep path); [contradiction Hn; reflexivity | reflexivity].
Qed.

Lemma open_w_ok (path : string) (fs0 fs1 : filesystem) :
  open_w path fs0 = (fs1, Ok tt) ->
  truthy path = true /\ all_sep path = false /\
  fs1 = store path (File (Parsed VNone)) fs0.
Proof.
  unfold open_w. run_monad.
  destruct (truthy path) eqn:Ht; cbn [negb]; [|discriminate].
  destruct (lookup_path fs0 path) as [[|c]|] eqn:Hl; [discriminate| |].
  - destruct (bool_decide (path ∈ readonly fs0)); [discriminate|].
    intros [= <-]. split; [reflexivity|]. split; [|reflexivity].
    apply (lookup_path_not_dir fs0); [congruence | assumption].
  - destruct (check_parent fs0 path) as [[]|e]; [|discriminate].
    intros [= <-]. split; [reflexivity|]. split; [|reflexivity].
    apply (lookup_path_not_dir fs0); [congruence | assumption].
Qed.

Lemma store_store (path : string) (n1 n2 : fnode) (fs0 : filesystem) :
  store path n2 (store path n1 fs0) = store path n2 fs0.
Proof. unfold store. cbn [nodes readonly]. by rewrite insert_insert_eq. Qed.

(** A save that returns has written the document at the path. *)
Lemma save_ok_stored (ci : CameraInfo) (path name : string) (fs0 fs1 : filesystem) (p' : string) :
  save_camera_info_to_yaml ci path name fs0 = (fs1, Ok p') ->
  p' = path /\ lookup_path fs1 path = Some (File (Parsed (save_data ci name))).
Proof.
  unfold save_camera_info_to_yaml, yaml_safe_dump. run_monad.
  destruct (os_makedirs (dirname path) true fs0) as [fsa [[]|e]]; [|discriminate].
  destruct (open_w path fsa) as [fsb [[]|e]] eqn:Ho; [|discriminate].
  intros [= <- <-]. split; [reflexivity|].
  apply open_w_ok in Ho as (Ht & Hs & ->).
  rewrite store_store. by apply lookup_path_store.
Qed.

Section LoadSaved.
Context `{Builtins}.

Lemma load_of_saved (fs0 : filesystem) (path : string) (ci : CameraInfo) (name : string) :
  lookup_path fs0 path = Some (File (Parsed (save_data ci name))) ->
  load_camera_info_from_yaml path fs0 = Ok (stored_view ci name).
Proof.
  intros Hl. unfold stored_view, load_camera_info_from_yaml, path_exists, open_r.
  rewrite Hl. cbn [negb yaml_safe_load rbind].
  unfold save_data, matrix.
  cbn [matrix_data py_get assoc String.eqb Ascii.eqb Bool.eqb rbind py_int py_list].
  rewrite !as_nums_num_val. cbn [rbind as_str].
  destruct (truthy (sensor_msgs.r ci)), (truthy (sensor_msgs.p ci));
    rewrite ?as_nums_num_val; reflexivity.
Qed.
End LoadSaved.

(** ** When a save goes through *)

Lemma cut_tail_empty (s h : string) :
  cut_after_last_sep s = Some (h, EmptyString) -> ends_with_sep s = true.
Proof.
  revert h. induction s as [|c s IH]; intros h; cbn [cut_after_last_sep]; [discriminate|].
  destruct (cut_after_last_sep s) as [[h' t']|] eqn:Hcut.
  - intros [= <- ->]. specialize (IH h' eq_refl).
    destruct s; [discriminate IH | exact IH].
  - destruct (is_sep c) eqn:Hc; [|discriminate].
    intros [= <- ->]. exact Hc.
Qed.

Lemma rstrip_sep_no_trailing (s : string) : ends_with_sep (rstrip_sep s) = false.
Proof.
  induction s as [|c s IH]; [reflexivity|]. cbn [rstrip_sep].
  destruct (rstrip_sep s) as [|c' s'].
  - destruct (is_sep c) eqn:Hc; [reflexivity | exact Hc].
  - exact IH.
Qed.

Lemma cut_all_sep (s : string) :
  all_sep s = true -> s <> EmptyString -> cut_after_last_sep s = Some (s, EmptyString).
Proof.
  induction s as [|c s IH]; [congruence|].
  cbn [all_sep cut_after_last_sep]. intros Hall _.
  apply andb_prop in Hall as [Hc Hall].
  destruct s as [|c' s'].
  - cbn [cut_after_last_sep]. by rewrite Hc.
  - rewrite (IH Hall); [reflexivity | discriminate].
Qed.

Lemma posix_split_all_sep (s : string) :
  all_sep s = true -> s <> EmptyString -> posix_split s = (s, EmptyString).
Proof.
  intros Hall Hne. unfold posix_split. rewrite (cut_all_sep s Hall Hne).
  rewrite Hall. by rewrite andb_false_r.
Qed.

(** A directory name is empty, the root, or ends in a name. *)
Lemma dirname_shape (p : string) :
  dirname p = EmptyString \/ all_sep (dirname p) = true \/
  snd (posix_split (dirname p)) <> EmptyString.
Proof.
  unfold dirname at 1 2 3. unfold posix_split at 1 2 4.
  destruct (cut_after_last_sep p) as [[h' t']|]; [|left; reflexivity].
  cbn [fst].
  destruct (truthy h') eqn:Ht; [|left; by apply truthy_string_false].
  destruct (all_sep h') eqn:Hall; cbn [andb negb]; [right; left; exact Hall|].
  right; right.
  pose proof (rstrip_sep_no_trailing h') as Hend.
  assert (Hne : rstrip_sep h' <> EmptyString).
  { clear Hend Ht. induction h' as [|c s IH]; [discriminate Hall|].
    cbn [all_sep] in Hall. cbn [rstrip_sep].
    destruct (rstrip_sep s) as [|c' s'] eqn:Hs; [|discriminate].
    destruct (is_sep c) eqn:Hc; [|discriminate].
    cbn [andb] in Hall. destruct s as [|c2 s2]; [discriminate Hall|].
    exfalso. by apply IH. }
  unfold posix_split.
  destruct (cut_after_last_sep (rstrip_sep h')) as [[h t]|] eqn:Hcut;
    cbn [snd]; [|exact Hne].
  intros ->. apply cut_tail_empty in Hcut. congruence.
Qed.

Lemma path_isdir_truthy (fs0 : filesystem) (p : string) :
  path_isdir fs0 p = true -> truthy p = true /\ lookup_path fs0 p = Some Dir.
Proof.
  unfold path_isdir, lookup_path.
  destruct (truthy p); cbn [negb]; [|discriminate].
  destruct (all_sep p); [by split|].
  destruct (nodes fs0 !! p) as [[|c]|]; by split.
Qed.

(** [os.makedirs] on a directory that is there, with its parent, changes
    nothing. *)
Lemma os_makedirs_existing (d : string) (fs0 : filesystem) :
  path_isdir fs0 d = true ->
  all_sep d = true \/ snd (posix_split d) <> EmptyString ->
  dirname d = EmptyString \/ path_exists fs0 (dirname d) = true ->
  os_makedirs d true fs0 = (fs0, Ok tt).
Proof.
  intros Hdir Hshape Hparent.
  apply path_isdir_truthy in Hdir as [Ht Hl].
  assert (Hmkdir :
    try_except (os_mkdir d)
      (fun e =>
         if is_OSError e
         then fs' <- get ;;
              if negb true || negb (path_isdir fs' d) then raise e else ret tt
         else raise e) fs0 = (fs0, Ok tt)).
  { unfold try_except, os_mkdir, path_isdir. run_monad. rewrite Ht, Hl.
    cbn [negb]. run_monad. cbn [is_OSError EEXIST exn_class_of]. run_monad.
    rewrite Hl. reflexivity. }
  unfold os_makedirs. cbn [makedirs].
  destruct Hshape as [Hall | Htail].
  - assert (Hne : d <> EmptyString) by (by apply truthy_string_true).
    rewrite (posix_split_all_sep d Hall Hne). cbn [truthy string_truthy negb].
    rewrite (posix_split_all_sep d Hall Hne).
    cbn [truthy string_truthy]. rewrite andb_false_r. cbn [andb].
    unfold bind at 1. unfold get at 1. cbn beta iota.
    unfold bind at 1. unfold ret at 1. cbn beta iota. exact Hmkdir.
  - unfold dirname in Hparent.
    destruct (posix_split d) as [h0 t0]. cbn [fst snd] in Hparent, Htail.
    apply truthy_string_true in Htail. rewrite Htail. cbn [negb].
    assert (Hcond : truthy h0 && true && negb (path_exists fs0 h0) = false).
    { destruct Hparent as [-> | ->]; [reflexivity|]. cbn [negb]. apply andb_false_r. }
    unfold bind at 1. unfold get at 1. cbn beta iota. rewrite Htail, Hcond.
    unfold bind at 1. unfold ret at 1. cbn beta iota. exact Hmkdir.
Qed.

(** A save into a directory that is there and takes new entries goes
    through, whether the file is new or replaces a writable one. *)
Lemma save_into_existing_directory (ci : CameraInfo) (path name : string)
    (fs0 : filesystem) :
  path_isdir fs0 (dirname path) = true ->
  dirname (dirname path) = EmptyString \/ path_exists fs0 (dirname (dirname path)) = true ->
  dirname path ∉ readonly fs0 ->
  lookup_path fs0 path = None \/
    (exists c, lookup_path fs0 path = Some (File c)) /\ path ∉ readonly fs0 ->
  save_camera_info_to_yaml ci path name fs0 =
    (store path (File (Parsed (save_data ci name))) fs0, Ok path).
Proof.
  intros Hdir Hparent Hrw Hfile.
  assert (Hshape : all_sep (dirname path) = true \/
                   snd (posix_split (dirname path)) <> EmptyString).
  { destruct (dirname_shape path) as [He | [Ha | Hs]]; [|by left|by right].
    apply path_isdir_truthy in Hdir as [Ht _]. rewrite He in Ht. discriminate Ht. }
  unfold save_camera_info_to_yaml.
  unfold bind at 1. rewrite (os_makedirs_existing _ fs0 Hdir Hshape Hparent).
  apply path_isdir_truthy in Hdir as [Ht Hl].
  assert (Hpath : truthy path = true).
  { destruct path; [discriminate Ht | reflexivity]. }
  unfold open_w, yaml_safe_dump, check_parent. run_monad. rewrite Hpath. cbn [negb].
  destruct Hfile as [Hnone | [[c Hc] Hw]].
  - rewrite Hnone, Ht, Hl. rewrite bool_decide_eq_false_2 by exact Hrw.
    run_monad. by rewrite store_store.
  - rewrite Hc. rewrite bool_decide_eq_false_2 by exact Hw.
    run_monad. by rewrite store_store.
Qed.

(** ** Construction *)

Section InitLemmas.
Context `{Builtins}.

Lemma default_camera_info_ok (w0 h0 : Z) (fid : string) (cx cy : float) :
  int_truediv_float (py_or w0 640) 2%float = Ok cx ->
  int_truediv_float (py_or h0 480) 2%float = Ok cy ->
  default_camera_info w0 h0 fid =
    Ok {| sensor_msgs.header :=
            {| sensor_msgs.stamp := {| sec := 0; nanosec := 0 |};
               sensor_msgs.frame_id := fid |};
          sensor_msgs.height := py_or h0 480;
          sensor_msgs.width := py_or w0 640;
          sensor_msgs.distortion_model := EmptyString;
          sensor_msgs.d := [];
          sensor_msgs.k :=
            [PFloat 1; PFloat 0; PFloat cx;
             PFloat 0; PFloat 1; PFloat cy;
             PFloat 0; PFloat 0; PFloat 1];
          sensor_msgs.r :=
            [PFloat 1; PFloat 0; PFloat 0;
             PFloat 0; PFloat 1; PFloat 0;
             PFloat 0; PFloat 0; PFloat 1];
          sensor_msgs.p :=
            [PFloat 1; PFloat 0; PFloat cx; PFloat 0;
             PFloat 0; PFloat 1; PFloat cy; PFloat 0;
             PFloat 0; PFloat 0; PFloat 1; PFloat 0] |}.
Proof.
  intros Hx Hy. unfold default_camera_info. rewrite Hx, Hy. reflexivity.
Qed.

Lemma init_defaulted (c : context) (params : parameters) (w : World) (ci : CameraInfo) :
  isOpened (cap w) = true ->
  PrimFloat.eqb (param_frame_rate params) 0%float = false ->
  default_camera_info (frame_width (cap w)) (frame_height (cap w))
    (param_frame_id params) = Ok ci ->
  (path_exists (fs w) (resolve_yaml_path c (param_camera_info_url params)) = false \/
   exists e, load_camera_info_from_yaml
               (resolve_yaml_path c (param_camera_info_url params)) (fs w) = Raise e) ->
  exists w',
    __init__ c params w =
      (w', Ok {| ctx := c;
                 frame_id := param_frame_id params;
                 yaml_path := resolve_yaml_path c (param_camera_info_url params);
                 camera_info_msg := Some (fresh (dom (heap w))) |}) /\
    heap w' !! fresh (dom (heap w)) = Some ci.
Proof.
  destruct w as [h f cp im cis lg]. cbn [cap fs heap].
  intros Hopen Hfps Hdef Hload.
  unfold __init__, float_truediv. run_monad. rewrite Hopen, Hfps. run_monad.
  assert (Hnone :
    (if path_exists f (resolve_yaml_path c (param_camera_info_url params))
     then
       match load_camera_info_from_yaml
               (resolve_yaml_path c (param_camera_info_url params)) f with
       | Ok a => true
       | Raise _ => false
       end
     else false) = false).
  { destruct Hload as [-> | [e ->]]; [reflexivity|].
    destruct (path_exists _ _); reflexivity. }
  destruct (path_exists f (resolve_yaml_path c (param_camera_info_url params))).
  - destruct (load_camera_info_from_yaml _ f) as [a|e]; [discriminate|].
    run_monad. rewrite Hdef. run_heap.
    eexists. split; [reflexivity|]. cbn [heap]. apply lookup_insert_eq.
  - run_monad. rewrite Hdef. run_heap.
    eexists. split; [reflexivity|]. cbn [heap]. apply lookup_insert_eq.
Qed.

(** A construction that completes leaves a current record. *)
Lemma init_has_current (c : context) (params : parameters) (w w' : World)
    (node : SimpleCameraNode) :
  __init__ c params w = (w', Ok node) ->
  has_current {| self := node; world := w' |}.
Proof.
  destruct w as [h f cp im cis lg].
  unfold __init__, float_truediv, has_current. run_monad.
  destruct (isOpened cp); cbn [negb]; [|discriminate]. run_monad.
  destruct (PrimFloat.eqb (param_frame_rate params) 0) eqn:Hfps.
  - (* a zero frame rate ends the construction *)
    destruct (path_exists f _); run_monad.
    + destruct (load_camera_info_from_yaml _ f) as [a|e]; run_heap.
      * destruct (negb (truthy (sensor_msgs.frame_id (sensor_msgs.header a))));
          run_heap; discriminate.
      * destruct (default_camera_info _ _ _); run_heap; discriminate.
    + destruct (default_camera_info _ _ _); run_heap; discriminate.
  - destruct (path_exists f _); run_monad.
    + destruct (load_camera_info_from_yaml _ f) as [a|e]; run_heap.
      * destruct (negb (truthy (sensor_msgs.frame_id (sensor_msgs.header a))));
          run_heap; intros [= <- <-]; do 2 eexists;
          (split; [reflexivity|]); cbn [heap world]; apply lookup_insert_eq.
      * destruct (default_camera_info _ _ _); run_heap; [|discriminate].
        intros [= <- <-]; do 2 eexists;
          (split; [reflexivity|]); cbn [heap world]; apply lookup_insert_eq.
    + destruct (default_camera_info _ _ _); run_heap; [|discriminate].
      intros [= <- <-]; do 2 eexists;
        (split; [reflexivity|]); cbn [heap world]; apply lookup_insert_eq.
Qed.
End InitLemmas.

Lemma handle_set_camera_info_dangling (s : System) (request : loc) :
  heap (world s) !! request = None ->
  exists resp lg,
    handle_set_camera_info request s =
      ({| self := self s; world := with_logs lg (world s) |}, Ok resp).
Proof.
  destruct s as [slf [h f c im ci lg]]. cbn [self world heap].
  intros Hx. unfold handle_set_camera_info. run_monad. rewrite Hx. run_monad.
  do 2 eexists. reflexivity.
Qed.

(** The handler never lets an exception out. *)
Lemma handle_set_camera_info_returns (s : System) (request : loc) :
  exists s' resp, handle_set_camera_info request s = (s', Ok resp).
Proof.
  destruct (heap (world s) !! request) as [x|] eqn:Hx.
  - rewrite (handle_set_camera_info_run s request x Hx).
    unfold after_set_camera_info.
    destruct (save_camera_info_to_yaml _ _ _ _) as [fs' [pth|e]]; do 2 eexists; reflexivity.
  - destruct (handle_set_camera_info_dangling s request Hx) as (resp & lg & ->).
    do 2 eexists; reflexivity.
Qed.

Lemma after_set_camera_info_heap (request : loc) (x : CameraInfo) (s : System) :
  heap (world (fst (after_set_camera_info request x s))) =
    <[request := patched s x]> (heap (world s)).
Proof.
  unfold after_set_camera_info.
  destruct (save_camera_info_to_yaml _ _ _ _) as [fs' [pth|e]]; reflexivity.
Qed.

Lemma after_set_camera_info_self (request : loc) (x : CameraInfo) (s : System) :
  self (fst (after_set_camera_info request x s)) =
    with_camera_info_msg (Some request) (self s).
Proof.
  unfold after_set_camera_info.
  destruct (save_camera_info_to_yaml _ _ _ _) as [fs' [pth|e]]; reflexivity.
Qed.

(** ** The set-request *)

(** C1, as the code has it: when the request's width or height is zero,
    both dimensions are taken from the capture device, each one becoming
    the dimension the device reports now when that is non-zero and keeping
    the request's value when the device reports zero; when both are
    non-zero, neither is changed. *)
Theorem set_camera_info_fills_both_dimensions
    (s : System) (request : loc) (x : CameraInfo) :
  heap (world s) !! request = Some x ->
  exists x',
    heap (world (fst (handle_set_camera_info request s))) !! request = Some x' /\
    ((sensor_msgs.width x = 0 \/ sensor_msgs.height x = 0) ->
     (frame_width (cap (world s)) <> 0 ->
      sensor_msgs.width x' = frame_width (cap (world s))) /\
     (frame_width (cap (world s)) = 0 ->
      sensor_msgs.width x' = sensor_msgs.width x) /\
     (frame_height (cap (world s)) <> 0 ->
      sensor_msgs.height x' = frame_height (cap (world s))) /\
     (frame_height (cap (world s)) = 0 ->
      sensor_msgs.height x' = sensor_msgs.height x)) /\
    (sensor_msgs.width x <> 0 -> sensor_msgs.height x <> 0 ->
     sensor_msgs.width x' = sensor_msgs.width x /\
     sensor_msgs.height x' = sensor_msgs.height x).
Proof.
  intros Hx. exists (patched s x).
  rewrite (handle_set_camera_info_run s request x Hx), after_set_camera_info_heap.
  split; [apply lookup_insert_eq|].
  unfold patched, fill_size, fill_frame_id.
  set (c := cap (world s)).
  assert (Hw : sensor_msgs.width
                 (if negb (truthy (sensor_msgs.frame_id (sensor_msgs.header x)))
                  then sensor_msgs.set_frame_id (frame_id (self s)) x else x)
               = sensor_msgs.width x) by (destruct (negb _); reflexivity).
  assert (Hh : sensor_msgs.height
                 (if negb (truthy (sensor_msgs.frame_id (sensor_msgs.header x)))
                  then sensor_msgs.set_frame_id (frame_id (self s)) x else x)
               = sensor_msgs.height x) by (destruct (negb _); reflexivity).
  rewrite !Hw, !Hh.
  destruct (py_or_Z (frame_width c) (sensor_msgs.width x)) as [Hw1 Hw0].
  destruct (py_or_Z (frame_height c) (sensor_msgs.height x)) as [Hh1 Hh0].
  split.
  - intros Hz.
    assert (Hc : negb (truthy (sensor_msgs.width x)) || negb (truthy (sensor_msgs.height x)) = true).
    { destruct Hz as [Hz|Hz]; apply truthy_Z_false in Hz; rewrite Hz;
        [reflexivity | apply orb_true_r]. }
    rewrite Hc. msg_fields. rewrite ?Hw, ?Hh. auto.
  - intros Hnw Hnh. apply truthy_Z_true in Hnw, Hnh. rewrite Hnw, Hnh. cbn [negb orb].
    rewrite Hw, Hh. split; reflexivity.
Qed.

Lemma set_camera_info_fills_both_dimensions_witness :
  exists x',
    heap (world (fst (handle_set_camera_info 1%nat (serving no_files "/calib/camera.yaml" height_only))))
      !! 1%nat = Some x' /\
    sensor_msgs.width x' = 1280 /\ sensor_msgs.height x' = 720.
Proof.
  destruct (set_camera_info_fills_both_dimensions
              (serving no_files "/calib/camera.yaml" height_only) 1%nat height_only)
    as (x' & Hx' & Hzero & _); [vm_compute; reflexivity|].
  exists x'. split; [exact Hx'|].
  destruct Hzero as (Hw & _ & Hh & _); [left; reflexivity|].
  split; [apply Hw | apply Hh]; vm_compute; discriminate.
Defined.

(** A request with height 480 and no width, served while the device
    reports 1280 by 720, ends with height 720: the supplied height is not
    kept. *)
Lemma supplied_dimension_overwritten :
  ~ keeps_supplied_dimension 1%nat (serving no_files "/calib/camera.yaml" height_only).
Proof.
  intros Hk.
  destruct (Hk height_only
              (sensor_msgs.set_height 720
                 (sensor_msgs.set_width 1280
                    (sensor_msgs.set_frame_id "camera_link" height_only))))
    as [Hkeep _]; [vm_compute; reflexivity | vm_compute; reflexivity |].
  specialize (Hkeep eq_refl). vm_compute in Hkeep.
  assert (Hne : 480 <> 0) by discriminate.
  specialize (Hkeep Hne). discriminate Hkeep.
Qed.

(** C2: when the save inside the handler raises, the handler still
    returns a response, with [success] false and the exception's text in
    the message, and the node already holds the patched request record:
    the next publish sends that record. *)
Theorem set_camera_info_persist_failure
    (s : System) (request : loc) (x : CameraInfo) (fs' : filesystem) (e : exn) :
  heap (world s) !! request = Some x ->
  save_camera_info_to_yaml (patched s x) (yaml_path (self s))
    (namespace_or_name (ctx (self s))) (fs (world s)) = (fs', Raise e) ->
  exists s' resp,
    handle_set_camera_info request s = (s', Ok resp) /\
    success resp = false /\
    status_message resp = "Error saving camera info: " +:+ exn_str e /\
    camera_info_msg (self s') = Some request /\
    heap (world s') !! request = Some (patched s x) /\
    forall frame now,
      exists s'' copy,
        timer_callback (Some frame) now s' = (s'', Ok tt) /\
        camera_info (world s'') =
          (copy, stamped s now (patched s x)) :: camera_info (world s').
Proof.
  intros Hx Hsave.
  rewrite (handle_set_camera_info_run s request x Hx).
  unfold after_set_camera_info. rewrite Hsave.
  do 2 eexists. split; [reflexivity|].
  cbn [success status_message self world heap with_camera_info_msg camera_info_msg].
  repeat (split; [first [reflexivity | apply lookup_insert_eq]|]).
  intros frame now. do 2 eexists.
  split.
  - apply (timer_callback_run _ request (patched s x)); cbn [self world heap];
      [reflexivity | apply lookup_insert_eq].
  - reflexivity.
Qed.

Lemma set_camera_info_persist_failure_witness :
  exists s' resp,
    handle_set_camera_info 1%nat (serving locked_calib "/calib/camera.yaml" height_only)
      = (s', Ok resp) /\
    success resp = false /\
    status_message resp =
      "Error saving camera info: [Errno 13] Permission denied: '/calib/camera.yaml'" /\
    camera_info_msg (self s') = Some 1%nat.
Proof.
  destruct (set_camera_info_persist_failure
              (serving locked_calib "/calib/camera.yaml" height_only) 1%nat height_only
              locked_calib (EACCES "/calib/camera.yaml"))
    as (s' & resp & Hrun & Hfail & Hmsg & Hcur & _);
    [vm_compute; reflexivity | vm_compute; reflexivity |].
  exists s', resp. repeat split; assumption.
Defined.

(** ** The calibration store *)

Section StoreTheorems.
Context `{Builtins}.

(** A save that returns is followed by a load that returns. *)
Lemma load_after_save (ci : CameraInfo) (path name : string)
    (fs0 fs1 : filesystem) (p' : string) :
  save_camera_info_to_yaml ci path name fs0 = (fs1, Ok p') ->
  load_camera_info_from_yaml path fs1 = Ok (stored_view ci name).
Proof.
  intros Hsave. apply save_ok_stored in Hsave as [_ Hl].
  by apply load_of_saved.
Qed.

(** In a directory that is there and takes new entries, the save
    returns and the load after it gives the stored view of the record. *)
Lemma save_then_load (ci : CameraInfo) (path name : string) (fs0 : filesystem) :
  path_isdir fs0 (dirname path) = true ->
  dirname (dirname path) = EmptyString \/ path_exists fs0 (dirname (dirname path)) = true ->
  dirname path ∉ readonly fs0 ->
  lookup_path fs0 path = None \/
    (exists c, lookup_path fs0 path = Some (File c)) /\ path ∉ readonly fs0 ->
  exists fs1,
    save_camera_info_to_yaml ci path name fs0 = (fs1, Ok path) /\
    load_camera_info_from_yaml path fs1 = Ok (stored_view ci name).
Proof.
  intros Hdir Hparent Hrw Hfile.
  pose proof (save_into_existing_directory ci path name fs0 Hdir Hparent Hrw Hfile) as Hsave.
  eexists. split; [exact Hsave|].
  by apply (load_after_save ci path name fs0 _ path).
Qed.

(** C3: a record with non-empty R, non-empty P and a non-empty frame
    label, saved with no camera name and loaded again from the same
    path, comes back with the same width, height, K, D, R, P,
    distortion model and frame label. *)
Theorem save_load_round_trip (x : CameraInfo) (path : string)
    (fs0 fs1 : filesystem) (p' : string) :
  sensor_msgs.r x <> [] ->
  sensor_msgs.p x <> [] ->
  sensor_msgs.frame_id (sensor_msgs.header x) <> EmptyString ->
  save_camera_info_to_yaml x path EmptyString fs0 = (fs1, Ok p') ->
  exists y,
    load_camera_info_from_yaml path fs1 = Ok y /\
    sensor_msgs.width y = sensor_msgs.width x /\
    sensor_msgs.height y = sensor_msgs.height x /\
    sensor_msgs.k y = sensor_msgs.k x /\
    sensor_msgs.d y = sensor_msgs.d x /\
    sensor_msgs.r y = sensor_msgs.r x /\
    sensor_msgs.p y = sensor_msgs.p x /\
    sensor_msgs.distortion_model y = sensor_msgs.distortion_model x /\
    sensor_msgs.frame_id (sensor_msgs.header y) =
      sensor_msgs.frame_id (sensor_msgs.header x).
Proof.
  intros Hr Hp Hf Hsave.
  exists (stored_view x EmptyString).
  split; [by apply (load_after_save x path EmptyString fs0 fs1 p')|].
  apply truthy_list_true in Hr, Hp. apply truthy_string_true in Hf.
  unfold stored_view, py_or. msg_fields.
  cbn [truthy string_truthy]. rewrite Hr, Hp, Hf.
  repeat split; reflexivity.
Qed.

(** C6: a save writes the identity as rectification matrix data when
    R is empty and twelve zeros as projection matrix data when P is
    empty, so that a load gives these back; a non-empty R or P is
    written as it is. *)
Theorem save_substitutes_empty_R_and_P (ci : CameraInfo) (path name : string)
    (fs0 fs1 : filesystem) (p' : string) :
  save_camera_info_to_yaml ci path name fs0 = (fs1, Ok p') ->
  exists doc y,
    lookup_path fs1 path = Some (File (Parsed doc)) /\
    load_camera_info_from_yaml path fs1 = Ok y /\
    (sensor_msgs.r ci = [] ->
     matrix_data doc "rectification_matrix" =
       Ok (VList [VInt 1; VInt 0; VInt 0; VInt 0; VInt 1; VInt 0; VInt 0; VInt 0; VInt 1]) /\
     sensor_msgs.r y =
       [PInt 1; PInt 0; PInt 0; PInt 0; PInt 1; PInt 0; PInt 0; PInt 0; PInt 1]) /\
    (sensor_msgs.r ci <> [] ->
     matrix_data doc "rectification_matrix" = Ok (VList (map num_val (sensor_msgs.r ci))) /\
     sensor_msgs.r y = sensor_msgs.r ci) /\
    (sensor_msgs.p ci = [] ->
     matrix_data doc "projection_matrix" = Ok (VList (repeat (VFloat 0%float) 12)) /\
     sensor_msgs.p y = repeat (PFloat 0%float) 12) /\
    (sensor_msgs.p ci <> [] ->
     matrix_data doc "projection_matrix" = Ok (VList (map num_val (sensor_msgs.p ci))) /\
     sensor_msgs.p y = sensor_msgs.p ci).
Proof.
  intros Hsave.
  exists (save_data ci name), (stored_view ci name).
  split; [by apply (save_ok_stored ci path name fs0 fs1 p')|].
  split; [by apply (load_after_save ci path name fs0 fs1 p')|].
  unfold stored_view, save_data, matrix_data, matrix. msg_fields.
  cbn [py_get assoc String.eqb Ascii.eqb Bool.eqb rbind].
  split; [|split; [|split]].
  - intros ->. split; reflexivity.
  - intros Hr. apply truthy_list_true in Hr. rewrite Hr. split; reflexivity.
  - intros ->. split; reflexivity.
  - intros Hp. apply truthy_list_true in Hp. rewrite Hp. split; reflexivity.
Qed.

End StoreTheorems.

(** C7: the camera name that a save writes is the name handed in when
    that is non-empty, else the record's frame label when that is
    non-empty, else the word camera. *)
Theorem save_camera_name_fallback (ci : CameraInfo) (path name : string)
    (fs0 fs1 : filesystem) (p' : string) :
  save_camera_info_to_yaml ci path name fs0 = (fs1, Ok p') ->
  exists doc,
    lookup_path fs1 path = Some (File (Parsed doc)) /\
    (name <> EmptyString -> py_get doc "camera_name" VNone = Ok (VStr name)) /\
    (name = EmptyString ->
     sensor_msgs.frame_id (sensor_msgs.header ci) <> EmptyString ->
     py_get doc "camera_name" VNone =
       Ok (VStr (sensor_msgs.frame_id (sensor_msgs.header ci)))) /\
    (name = EmptyString ->
     sensor_msgs.frame_id (sensor_msgs.header ci) = EmptyString ->
     py_get doc "camera_name" VNone = Ok (VStr "camera")).
Proof.
  intros Hsave. exists (save_data ci name).
  split; [by apply (save_ok_stored ci path name fs0 fs1 p')|].
  unfold save_data, py_or. cbn [py_get assoc String.eqb Ascii.eqb Bool.eqb].
  repeat split.
  - intros Hn. destruct name; [contradiction|reflexivity].
  - intros -> Hf.
    destruct (sensor_msgs.frame_id (sensor_msgs.header ci)); [contradiction|reflexivity].
  - intros -> ->. reflexivity.
Qed.

(** A path with no directory part cannot be saved to: [os.makedirs] is
    called on the empty string. *)
Lemma save_without_directory (ci : CameraInfo) (path name : string) (fs0 : filesystem) :
  dirname path = EmptyString ->
  save_camera_info_to_yaml ci path name fs0 = (fs0, Raise (ENOENT EmptyString)).
Proof.
  intros Hd. unfold save_camera_info_to_yaml. rewrite Hd. reflexivity.
Qed.

(** C8 at the bare file name [camera_info.yaml]: the save raises
    [FileNotFoundError] out of [os.makedirs] and writes nothing, whatever
    the file system holds; the handler then answers with a failure. *)
Theorem save_bare_filename_raises (ci : CameraInfo) (name : string) (fs0 : filesystem) :
  dirname "camera_info.yaml" = EmptyString /\
  save_camera_info_to_yaml ci "camera_info.yaml" name fs0 =
    (fs0, Raise (ENOENT EmptyString)) /\
  exn_class_of (ENOENT EmptyString) = FileNotFoundError.
Proof.
  split; [reflexivity|]. split; [|reflexivity].
  by apply save_without_directory.
Qed.

Lemma save_load_round_trip_witness :
  exists y,
    @load_camera_info_from_yaml strict_ints "/calib/camera.yaml"
      (fst (save_camera_info_to_yaml calibrated "/calib/camera.yaml" EmptyString no_files))
      = Ok y /\
    sensor_msgs.width y = 640 /\
    sensor_msgs.height y = 480 /\
    sensor_msgs.k y = sensor_msgs.k calibrated /\
    sensor_msgs.d y = sensor_msgs.d calibrated /\
    sensor_msgs.r y = sensor_msgs.r calibrated /\
    sensor_msgs.p y = sensor_msgs.p calibrated /\
    sensor_msgs.distortion_model y = "plumb_bob" /\
    sensor_msgs.frame_id (sensor_msgs.header y) = "left_camera".
Proof.
  apply (@save_load_round_trip strict_ints calibrated "/calib/camera.yaml" no_files
           (fst (save_camera_info_to_yaml calibrated "/calib/camera.yaml" EmptyString no_files))
           "/calib/camera.yaml");
    [discriminate | discriminate | discriminate | vm_compute; reflexivity].
Defined.

Lemma save_substitutes_empty_R_and_P_witness :
  exists doc y,
    lookup_path
      (fst (save_camera_info_to_yaml sensor_msgs.new_CameraInfo "/calib/camera.yaml"
              EmptyString no_files)) "/calib/camera.yaml" = Some (File (Parsed doc)) /\
    @load_camera_info_from_yaml strict_ints "/calib/camera.yaml"
      (fst (save_camera_info_to_yaml sensor_msgs.new_CameraInfo "/calib/camera.yaml"
              EmptyString no_files)) = Ok y /\
    sensor_msgs.r y = identity3x3 /\
    sensor_msgs.p y = zeros12.
Proof.
  destruct (@save_substitutes_empty_R_and_P strict_ints sensor_msgs.new_CameraInfo
              "/calib/camera.yaml" EmptyString no_files
              (fst (save_camera_info_to_yaml sensor_msgs.new_CameraInfo "/calib/camera.yaml"
                      EmptyString no_files))
              "/calib/camera.yaml")
    as (doc & y & Hdoc & Hload & Hr & _ & Hp & _); [vm_compute; reflexivity|].
  exists doc, y. split; [exact Hdoc|]. split; [exact Hload|].
  split; [apply Hr | apply Hp]; reflexivity.
Defined.

Lemma save_camera_name_fallback_witness :
  exists doc,
    lookup_path
      (fst (save_camera_info_to_yaml sensor_msgs.new_CameraInfo "/calib/camera.yaml"
              EmptyString no_files)) "/calib/camera.yaml" = Some (File (Parsed doc)) /\
    py_get doc "camera_name" VNone = Ok (VStr "camera").
Proof.
  destruct (save_camera_name_fallback sensor_msgs.new_CameraInfo
              "/calib/camera.yaml" EmptyString no_files
              (fst (save_camera_info_to_yaml sensor_msgs.new_CameraInfo "/calib/camera.yaml"
                      EmptyString no_files))
              "/calib/camera.yaml")
    as (doc & Hdoc & _ & _ & Hname); [vm_compute; reflexivity|].
  exists doc. split; [exact Hdoc|]. apply Hname; reflexivity.
Defined.

(** ** Construction *)

Section InitTheorems.
Context `{Builtins}.

(** C4: a load from a path that does not exist raises
    [FileNotFoundError]; and when the storage path does not exist or
    its load raises, a construction on an opened device with a
    non-zero frame rate completes with the default record current: the
    device's width and height, 640 and 480 standing in for a zero, K
    and P built on half the width [cx] and half the height [cy], D
    empty, R the identity and the configured frame label. *)
Theorem load_missing_and_default_record
    (c : context) (params : parameters) (w : World) (cx cy : float)
    (fs0 : filesystem) (path0 : string) :
  isOpened (cap w) = true ->
  PrimFloat.eqb (param_frame_rate params) 0%float = false ->
  int_truediv_float (py_or (frame_width (cap w)) 640) 2%float = Ok cx ->
  int_truediv_float (py_or (frame_height (cap w)) 480) 2%float = Ok cy ->
  (path_exists fs0 path0 = false ->
   load_camera_info_from_yaml path0 fs0 =
     Raise (Exn FileNotFoundError ("Camera info file not found: " +:+ path0))) /\
  ((path_exists (fs w) (resolve_yaml_path c (param_camera_info_url params)) = false \/
    exists e, load_camera_info_from_yaml
                (resolve_yaml_path c (param_camera_info_url params)) (fs w) = Raise e) ->
   exists w' node l ci,
     __init__ c params w = (w', Ok node) /\
     camera_info_msg node = Some l /\
     heap w' !! l = Some ci /\
     (frame_width (cap w) <> 0 -> sensor_msgs.width ci = frame_width (cap w)) /\
     (frame_width (cap w) = 0 -> sensor_msgs.width ci = 640) /\
     (frame_height (cap w) <> 0 -> sensor_msgs.height ci = frame_height (cap w)) /\
     (frame_height (cap w) = 0 -> sensor_msgs.height ci = 480) /\
     sensor_msgs.k ci =
       [PFloat 1; PFloat 0; PFloat cx;
        PFloat 0; PFloat 1; PFloat cy;
        PFloat 0; PFloat 0; PFloat 1] /\
     sensor_msgs.d ci = [] /\
     sensor_msgs.r ci =
       [PFloat 1; PFloat 0; PFloat 0;
        PFloat 0; PFloat 1; PFloat 0;
        PFloat 0; PFloat 0; PFloat 1] /\
     sensor_msgs.p ci =
       [PFloat 1; PFloat 0; PFloat cx; PFloat 0;
        PFloat 0; PFloat 1; PFloat cy; PFloat 0;
        PFloat 0; PFloat 0; PFloat 1; PFloat 0] /\
     sensor_msgs.frame_id (sensor_msgs.header ci) = param_frame_id params).
Proof.
  intros Hopen Hfps Hcx Hcy. split.
  - intros Hmiss. unfold load_camera_info_from_yaml. by rewrite Hmiss.
  - intros Hload.
    pose proof (default_camera_info_ok (frame_width (cap w)) (frame_height (cap w))
                  (param_frame_id params) cx cy Hcx Hcy) as Hdef.
    destruct (init_defaulted c params w _ Hopen Hfps Hdef Hload) as (w' & Hinit & Hci).
    do 4 eexists. split; [exact Hinit|].
    split; [reflexivity|]. split; [exact Hci|].
    msg_fields.
    destruct (py_or_Z (frame_width (cap w)) 640) as [Hw1 Hw0].
    destruct (py_or_Z (frame_height (cap w)) 480) as [Hh1 Hh0].
    repeat split; auto.
Qed.

End InitTheorems.

Lemma load_missing_and_default_record_witness :
  (@load_camera_info_from_yaml strict_ints "/calib/camera.yaml" no_files =
     Raise (Exn FileNotFoundError "Camera info file not found: /calib/camera.yaml")) /\
  exists w' node l ci,
    @__init__ strict_ints root_context default_parameters new_world = (w', Ok node) /\
    camera_info_msg node = Some l /\
    heap w' !! l = Some ci /\
    sensor_msgs.width ci = 1280 /\
    sensor_msgs.height ci = 720 /\
    sensor_msgs.k ci =
      [PFloat 1; PFloat 0; PFloat 640; PFloat 0; PFloat 1; PFloat 360;
       PFloat 0; PFloat 0; PFloat 1].
Proof.
  destruct (@load_missing_and_default_record strict_ints root_context default_parameters
              new_world 640%float 360%float no_files "/calib/camera.yaml")
    as [Hmiss Hinit]; try (vm_compute; reflexivity).
  split; [apply Hmiss; vm_compute; reflexivity|].
  destruct Hinit as (w' & node & l & ci & Hrun & Hcur & Hci & Hw & _ & Hh & _ & Hk & _);
    [left; vm_compute; reflexivity|].
  exists w', node, l, ci.
  repeat (split; [assumption|]).
  split; [apply Hw; vm_compute; discriminate|].
  split; [apply Hh; vm_compute; discriminate|].
  exact Hk.
Defined.

(** C5: a request with zero width and height, an empty frame label and
    empty K, D, R and P, served with success while the device reports
    1280 by 720, leaves a file with image width 1280, image height 720,
    the identity as rectification matrix data, twelve zeros as projection
    matrix data and empty camera matrix data; the record in memory is the
    request with the configured frame label, and its K stays empty. *)
Theorem set_camera_info_empty_request
    (s s' : System) (request : loc) (x : CameraInfo) (resp : Response) :
  heap (world s) !! request = Some x ->
  sensor_msgs.width x = 0 ->
  sensor_msgs.height x = 0 ->
  sensor_msgs.frame_id (sensor_msgs.header x) = EmptyString ->
  sensor_msgs.k x = [] ->
  sensor_msgs.d x = [] ->
  sensor_msgs.r x = [] ->
  sensor_msgs.p x = [] ->
  frame_width (cap (world s)) = 1280 ->
  frame_height (cap (world s)) = 720 ->
  handle_set_camera_info request s = (s', Ok resp) ->
  success resp = true ->
  exists doc x',
    lookup_path (fs (world s')) (yaml_path (self s)) = Some (File (Parsed doc)) /\
    py_get doc "image_width" VNone = Ok (VInt 1280) /\
    py_get doc "image_height" VNone = Ok (VInt 720) /\
    matrix_data doc "rectification_matrix" =
      Ok (VList [VInt 1; VInt 0; VInt 0; VInt 0; VInt 1; VInt 0; VInt 0; VInt 0; VInt 1]) /\
    matrix_data doc "projection_matrix" = Ok (VList (repeat (VFloat 0%float) 12)) /\
    matrix_data doc "camera_matrix" = Ok (VList []) /\
    camera_info_msg (self s') = Some request /\
    heap (world s') !! request = Some x' /\
    sensor_msgs.frame_id (sensor_msgs.header x') = frame_id (self s) /\
    sensor_msgs.width x' = 1280 /\
    sensor_msgs.height x' = 720 /\
    sensor_msgs.k x' = [].
Proof.
  intros Hx Hw Hh Hf Hk Hd Hr Hp Hcw Hch Hrun Hok.
  rewrite (handle_set_camera_info_run s request x Hx) in Hrun.
  unfold after_set_camera_info in Hrun.
  assert (Hpatched : patched s x =
            sensor_msgs.set_height 720
              (sensor_msgs.set_width 1280
                 (sensor_msgs.set_frame_id (frame_id (self s)) x))).
  { unfold patched, fill_size, fill_frame_id. rewrite Hf. cbn [truthy string_truthy negb].
    msg_fields. rewrite Hw, Hh, Hcw, Hch. reflexivity. }
  destruct (save_camera_info_to_yaml _ _ _ _) as [fs' [pth|e]] eqn:Hsave.
  - injection Hrun as <- <-.
    apply save_ok_stored in Hsave as [_ Hdoc].
    exists (save_data (patched s x) (namespace_or_name (ctx (self s)))), (patched s x).
    cbn [self world fs heap with_camera_info_msg camera_info_msg].
    split; [exact Hdoc|].
    rewrite Hpatched. unfold save_data, matrix_data, matrix. msg_fields.
    rewrite Hk, Hr, Hp.
    cbn [py_get assoc String.eqb Ascii.eqb Bool.eqb rbind truthy list_truthy map].
    repeat (split; [first [reflexivity | apply lookup_insert_eq]|]).
    reflexivity.
  - injection Hrun as <- <-. cbn [success] in Hok. discriminate Hok.
Qed.

Lemma set_camera_info_empty_request_witness :
  exists doc x',
    lookup_path
      (fs (world (fst (handle_set_camera_info 1%nat
                         (serving no_files "/calib/camera.yaml" sensor_msgs.new_CameraInfo)))))
      "/calib/camera.yaml" = Some (File (Parsed doc)) /\
    py_get doc "image_width" VNone = Ok (VInt 1280) /\
    py_get doc "image_height" VNone = Ok (VInt 720) /\
    matrix_data doc "camera_matrix" = Ok (VList []) /\
    heap (world (fst (handle_set_camera_info 1%nat
                        (serving no_files "/calib/camera.yaml" sensor_msgs.new_CameraInfo))))
      !! 1%nat = Some x' /\
    sensor_msgs.frame_id (sensor_msgs.header x') = "camera_link".
Proof.
  destruct (set_camera_info_empty_request
              (serving no_files "/calib/camera.yaml" sensor_msgs.new_CameraInfo)
              (fst (handle_set_camera_info 1%nat
                      (serving no_files "/calib/camera.yaml" sensor_msgs.new_CameraInfo)))
              1%nat sensor_msgs.new_CameraInfo
              {| success := true;
                 status_message := "Camera info saved to /calib/camera.yaml" |})
    as (doc & x' & Hdoc & Hw & Hh & _ & _ & Hk & _ & Hx' & Hf & _);
    try (vm_compute; reflexivity).
  exists doc, x'. repeat (split; [assumption|]). exact Hf.
Defined.

(** ** Publishing *)

(** C9: on a frame, the timer publishes a new object, not the one the
    node holds, that carries the current record with the capture time
    and the configured frame label in its header whatever label the
    record has; the node, its record and every other live object are
    left as they were. On a failed read nothing is published and
    nothing is changed. *)
Theorem timer_callback_publishes_copy
    (s : System) (l : loc) (x : CameraInfo) (frame : sensor_msgs.frame) (now : Time) :
  camera_info_msg (self s) = Some l ->
  heap (world s) !! l = Some x ->
  (exists s' copy y,
     timer_callback (Some frame) now s = (s', Ok tt) /\
     camera_info (world s') = (copy, y) :: camera_info (world s) /\
     copy <> l /\
     heap (world s) !! copy = None /\
     sensor_msgs.stamp (sensor_msgs.header y) = now /\
     sensor_msgs.frame_id (sensor_msgs.header y) = frame_id (self s) /\
     sensor_msgs.width y = sensor_msgs.width x /\
     sensor_msgs.height y = sensor_msgs.height x /\
     sensor_msgs.k y = sensor_msgs.k x /\
     sensor_msgs.d y = sensor_msgs.d x /\
     sensor_msgs.r y = sensor_msgs.r x /\
     sensor_msgs.p y = sensor_msgs.p x /\
     sensor_msgs.distortion_model y = sensor_msgs.distortion_model x /\
     self s' = self s /\
     heap (world s') !! l = Some x /\
     forall l' v, heap (world s) !! l' = Some v -> heap (world s') !! l' = Some v) /\
  (exists s',
     timer_callback None now s = (s', Ok tt) /\
     self s' = self s /\
     heap (world s') = heap (world s) /\
     camera_info (world s') = camera_info (world s)).
Proof.
  intros Hl Hx. split.
  - exists (after_timer_callback frame now x s), (fresh (dom (heap (world s)))),
      (stamped s now x).
    split; [by apply (timer_callback_run s l x)|].
    split; [reflexivity|].
    split; [by apply (fresh_not_live _ l x)|].
    split; [apply fresh_unused|].
    unfold stamped, after_timer_callback. msg_fields. cbn [self world heap].
    repeat (split; [reflexivity|]).
    split.
    + rewrite lookup_insert_ne; [exact Hx | by apply (fresh_not_live _ l x)].
    + intros l' v Hv.
      rewrite lookup_insert_ne; [exact Hv | by apply (fresh_not_live _ l' v)].
  - destruct s as [slf [h f c im ci lg]].
    unfold timer_callback, warn_once. run_monad.
    destruct (existsb _ lg); run_monad; eexists; (split; [reflexivity|]);
      repeat split.
Qed.

Lemma timer_callback_publishes_copy_witness :
  exists s' copy y,
    timer_callback (Some [1; 2; 3]) {| sec := 5; nanosec := 6 |}
      (serving no_files "/calib/camera.yaml" height_only) = (s', Ok tt) /\
    camera_info (world s') = [(copy, y)] /\
    copy <> 0%nat /\
    sensor_msgs.frame_id (sensor_msgs.header y) = "camera_link" /\
    heap (world s') !! 0%nat = Some calibrated.
Proof.
  destruct (timer_callback_publishes_copy (serving no_files "/calib/camera.yaml" height_only)
              0%nat calibrated [1; 2; 3] {| sec := 5; nanosec := 6 |})
    as [(s' & copy & y & Hrun & Hpub & Hne & _ & _ & Hf & _ & _ & _ & _ & _ & _ & _ & _ & Hkeep & _) _];
    try (vm_compute; reflexivity).
  exists s', copy, y. repeat (split; [assumption|]). exact Hkeep.
Defined.

(** ** The current record *)

Lemma timer_callback_keeps_current (s : System) (read : option sensor_msgs.frame)
    (now : Time) :
  has_current s -> has_current (fst (timer_callback read now s)).
Proof.
  intros (l & x & Hl & Hx). destruct read as [frame|].
  - rewrite (timer_callback_run s l x frame now Hl Hx).
    exists l, x. cbn [fst after_timer_callback self world heap].
    split; [exact Hl|].
    rewrite lookup_insert_ne; [exact Hx | by apply (fresh_not_live _ l x)].
  - destruct s as [slf [h f c im ci lg]]. cbn [self world heap] in Hl, Hx.
    unfold timer_callback, warn_once. run_monad.
    destruct (existsb _ lg); run_monad; exists l, x; split; assumption.
Qed.

Lemma handle_set_camera_info_keeps_current (s : System) (request : loc) :
  has_current s -> has_current (fst (handle_set_camera_info request s)).
Proof.
  intros (l & x & Hl & Hx).
  destruct (heap (world s) !! request) as [r|] eqn:Hr.
  - rewrite (handle_set_camera_info_run s request r Hr).
    exists request, (patched s r).
    rewrite after_set_camera_info_self, after_set_camera_info_heap.
    split; [reflexivity | apply lookup_insert_eq].
  - destruct (handle_set_camera_info_dangling s request Hr) as (resp & lg & ->).
    exists l, x. split; assumption.
Qed.

Lemma step_keeps_current (s s' : System) :
  step s s' -> has_current s -> has_current s'.
Proof.
  intros Hstep. destruct Hstep as [s l x Hnew | s request | s read now | s f c].
  - intros (l0 & x0 & Hl0 & Hx0). exists l0, x0.
    split; [exact Hl0|]. cbn [world with_heap heap].
    rewrite lookup_insert_ne; [exact Hx0 | congruence].
  - apply handle_set_camera_info_keeps_current.
  - apply timer_callback_keeps_current.
  - intros (l0 & x0 & Hl0 & Hx0). exists l0, x0. split; assumption.
Qed.

Section CurrentRecord.
Context `{Builtins}.

(** C10: once construction has completed, the node always holds a
    current record: whatever requests, timer ticks and outside changes
    follow, its reference is set and the object behind it is live. *)
Theorem current_record_always_exists (s : System) :
  reachable s -> has_current s.
Proof.
  intros Hreach. induction Hreach as [c params w w' node Hinit | s s' _ IH Hstep].
  - by apply (init_has_current c params w).
  - by apply (step_keeps_current s s').
Qed.

End CurrentRecord.

Lemma started_reachable : @reachable strict_ints started.
Proof.
  unfold started.
  destruct (@__init__ strict_ints root_context default_parameters new_world)
    as [w [node|e]] eqn:Hinit.
  - exact (@reachable_init strict_ints _ _ _ _ _ Hinit).
  - vm_compute in Hinit. discriminate Hinit.
Defined.

Lemma current_record_always_exists_witness :
  has_current
    (fst (timer_callback (Some [1; 2; 3]) {| sec := 5; nanosec := 6 |}
            (fst (handle_set_camera_info 1%nat
                    {| self := self started;
                       world := with_heap <[1%nat := height_only]> (world started) |})))).
Proof.
  apply (@current_record_always_exists strict_ints).
  eapply reachable_step; [|apply step_timer].
  eapply reachable_step; [|apply step_set_camera_info].
  eapply reachable_step; [exact started_reachable|].
  apply step_request. vm_compute. reflexivity.
Defined.

(** * Further properties *)

(** ** Construction, in full *)

Section InitFurther.
Context `{Builtins}.

Lemma load_ok_exists (path : string) (fs0 : filesystem) (ci : CameraInfo) :
  load_camera_info_from_yaml path fs0 = Ok ci -> path_exists fs0 path = true.
Proof.
  unfold load_camera_info_from_yaml.
  destruct (path_exists fs0 path); [reflexivity | discriminate].
Qed.

Lemma init_loaded
    (c : context) (params : parameters) (w : World) (ci : CameraInfo) :
  isOpened (cap w) = true ->
  PrimFloat.eqb (param_frame_rate params) 0%float = false ->
  load_camera_info_from_yaml (resolve_yaml_path c (param_camera_info_url params)) (fs w)
    = Ok ci ->
  exists w' node l y,
    __init__ c params w = (w', Ok node) /\
    camera_info_msg node = Some l /\
    heap w !! l = None /\
    heap w' !! l = Some y /\
    (sensor_msgs.frame_id (sensor_msgs.header ci) <> EmptyString -> y = ci) /\
    (sensor_msgs.frame_id (sensor_msgs.header ci) = EmptyString ->
     y = sensor_msgs.set_frame_id (param_frame_id params) ci) /\
    frame_id node = param_frame_id params /\
    yaml_path node = resolve_yaml_path c (param_camera_info_url params).
Proof.
  destruct w as [h f cp im cis lg]. cbn [cap fs heap].
  intros Hopen Hfps Hload.
  pose proof (load_ok_exists _ _ _ Hload) as Hex.
  unfold __init__, float_truediv. run_monad. rewrite Hopen, Hfps. run_monad.
  rewrite Hex, Hload. run_heap.
  destruct (sensor_msgs.frame_id (sensor_msgs.header ci)) as [|a rest] eqn:Hf;
    cbn [truthy string_truthy negb]; run_heap;
    do 4 eexists; (split; [reflexivity|]);
    cbn [camera_info_msg frame_id yaml_path heap];
    (split; [reflexivity|]); (split; [apply fresh_unused|]).
  - rewrite insert_insert_eq. split; [apply lookup_insert_eq|].
    split; [congruence|]. split; [reflexivity|]. split; reflexivity.
  - split; [apply lookup_insert_eq|].
    split; [reflexivity|]. split; [discriminate|]. split; reflexivity.
Qed.

(** X1: when the file at the storage path loads, a construction on an
    opened device with a non-zero frame rate completes with the loaded
    record current, in a new object; a loaded record with an empty frame
    label gets the configured one, any other keeps its own. *)
Theorem startup_adopts_loaded_record
    (c : context) (params : parameters) (w : World) (ci : CameraInfo) :
  isOpened (cap w) = true ->
  PrimFloat.eqb (param_frame_rate params) 0%float = false ->
  load_camera_info_from_yaml (resolve_yaml_path c (param_camera_info_url params)) (fs w)
    = Ok ci ->
  exists w' node l y,
    __init__ c params w = (w', Ok node) /\
    camera_info_msg node = Some l /\
    heap w !! l = None /\
    heap w' !! l = Some y /\
    (sensor_msgs.frame_id (sensor_msgs.header ci) <> EmptyString -> y = ci) /\
    (sensor_msgs.frame_id (sensor_msgs.header ci) = EmptyString ->
     y = sensor_msgs.set_frame_id (param_frame_id params) ci) /\
    frame_id node = param_frame_id params /\
    yaml_path node = resolve_yaml_path c (param_camera_info_url params).
Proof. apply init_loaded. Qed.


(** X3: on a device that did not open, the construction raises
    [RuntimeError] at once: the failure is logged, no file is looked at
    and no record is made. *)
Theorem startup_needs_open_device (c : context) (params : parameters) (w : World) :
  isOpened (cap w) = false ->
  __init__ c params w =
    (with_logs ((ERROR, "Failed to open video device: " +:+ param_device params) :: logs w) w,
     Raise (Exn RuntimeError "Camera open failed")).
Proof.
  destruct w as [h f cp im cis lg]. cbn [cap logs]. intros Hopen.
  unfold __init__. run_monad. rewrite Hopen. reflexivity.
Qed.

(** X4: a frame rate of zero ends the construction with
    [ZeroDivisionError], after the camera info has been prepared, whether
    the storage path holds a loadable file or the default record stands
    in. *)
Theorem startup_rejects_zero_frame_rate
    (c : context) (params : parameters) (w : World) (dflt : CameraInfo) :
  isOpened (cap w) = true ->
  PrimFloat.eqb (param_frame_rate params) 0%float = true ->
  default_camera_info (frame_width (cap w)) (frame_height (cap w))
    (param_frame_id params) = Ok dflt ->
  exists w',
    __init__ c params w = (w', Raise (Exn ZeroDivisionError "float division by zero")).
Proof.
  destruct w as [h f cp im cis lg]. cbn [cap]. intros Hopen Hfps Hdef.
  unfold __init__, float_truediv. run_monad. rewrite Hopen, Hfps. run_monad.
  destruct (path_exists f _); run_monad.
  - destruct (load_camera_info_from_yaml _ f) as [a|e]; run_heap.
    + destruct (negb (truthy (sensor_msgs.frame_id (sensor_msgs.header a))));
        run_heap; eexists; reflexivity.
    + rewrite Hdef. run_heap. eexists; reflexivity.
  - rewrite Hdef. run_heap. eexists; reflexivity.
Qed.

End InitFurther.

Lemma startup_adopts_loaded_record_witness :
  exists w' node l y,
    @__init__ strict_ints root_context calib_parameters (world_with calib_saved hd_device)
      = (w', Ok node) /\
    camera_info_msg node = Some l /\
    heap w' !! l = Some y /\
    sensor_msgs.width y = 640 /\
    sensor_msgs.frame_id (sensor_msgs.header y) = "left_camera".
Proof.
  destruct (@startup_adopts_loaded_record strict_ints root_context calib_parameters
              (world_with calib_saved hd_device)
              (stored_view calibrated EmptyString))
    as (w' & node & l & y & Hrun & Hcur & _ & Hy & Hkeep & _);
    try (vm_compute; reflexivity).
  exists w', node, l, y. repeat (split; [assumption|]).
  rewrite (Hkeep ltac:(discriminate)). split; reflexivity.
Defined.


Lemma startup_needs_open_device_witness :
  snd (@__init__ strict_ints root_context default_parameters
         (world_with no_files closed_device))
    = Raise (Exn RuntimeError "Camera open failed").
Proof.
  rewrite (@startup_needs_open_device strict_ints root_context default_parameters
             (world_with no_files closed_device)); reflexivity.
Defined.

Lemma startup_rejects_zero_frame_rate_witness :
  exists w',
    @__init__ strict_ints root_context
      {| param_device := "0"; param_frame_id := "camera_link";
         param_camera_info_url := EmptyString; param_frame_rate := 0%float |}
      new_world
    = (w', Raise (Exn ZeroDivisionError "float division by zero")).
Proof.
  apply (@startup_rejects_zero_frame_rate strict_ints root_context
           {| param_device := "0"; param_frame_id := "camera_link";
              param_camera_info_url := EmptyString; param_frame_rate := 0%float |}
           new_world
           (match default_camera_info 1280 720 "camera_link" with
            | Ok d => d
            | Raise _ => sensor_msgs.new_CameraInfo
            end));
    vm_compute; reflexivity.
Defined.

(** ** The set-request, in full *)

Lemma after_set_camera_info_world (request : loc) (x : CameraInfo) (s : System) :
  cap (world (fst (after_set_camera_info request x s))) = cap (world s) /\
  image_raw (world (fst (after_set_camera_info request x s))) = image_raw (world s) /\
  camera_info (world (fst (after_set_camera_info request x s))) = camera_info (world s).
Proof.
  unfold after_set_camera_info.
  destruct (save_camera_info_to_yaml _ _ _ _) as [fs' [pth|e]]; repeat split.
Qed.

Lemma patched_fields (s : System) (x : CameraInfo) :
  sensor_msgs.k (patched s x) = sensor_msgs.k x /\
  sensor_msgs.d (patched s x) = sensor_msgs.d x /\
  sensor_msgs.r (patched s x) = sensor_msgs.r x /\
  sensor_msgs.p (patched s x) = sensor_msgs.p x /\
  sensor_msgs.distortion_model (patched s x) = sensor_msgs.distortion_model x /\
  sensor_msgs.stamp (sensor_msgs.header (patched s x)) =
    sensor_msgs.stamp (sensor_msgs.header x) /\
  sensor_msgs.frame_id (sensor_msgs.header (patched s x)) =
    py_or (sensor_msgs.frame_id (sensor_msgs.header x)) (frame_id (self s)).
Proof.
  unfold patched, fill_size, fill_frame_id, py_or.
  destruct (truthy (sensor_msgs.frame_id (sensor_msgs.header x))); cbn [negb];
    destruct (negb _ || negb _); msg_fields; repeat split.
Qed.

(** X5: a set-request is taken as it comes. Whatever the save does, the
    node afterwards holds the request object, whose K, D, R, P and
    distortion model are those of the request, of any length, and whose
    frame label is the request's unless that was empty; no other object
    changes, nothing is published, and the node keeps its frame label
    and storage path. *)
Theorem set_camera_info_takes_request_as_is
    (s : System) (request : loc) (x : CameraInfo) :
  heap (world s) !! request = Some x ->
  exists s' resp y,
    handle_set_camera_info request s = (s', Ok resp) /\
    camera_info_msg (self s') = Some request /\
    heap (world s') !! request = Some y /\
    sensor_msgs.k y = sensor_msgs.k x /\
    sensor_msgs.d y = sensor_msgs.d x /\
    sensor_msgs.r y = sensor_msgs.r x /\
    sensor_msgs.p y = sensor_msgs.p x /\
    sensor_msgs.distortion_model y = sensor_msgs.distortion_model x /\
    (sensor_msgs.frame_id (sensor_msgs.header x) <> EmptyString ->
     sensor_msgs.frame_id (sensor_msgs.header y) =
       sensor_msgs.frame_id (sensor_msgs.header x)) /\
    (sensor_msgs.frame_id (sensor_msgs.header x) = EmptyString ->
     sensor_msgs.frame_id (sensor_msgs.header y) = frame_id (self s)) /\
    (forall l, l <> request -> heap (world s') !! l = heap (world s) !! l) /\
    image_raw (world s') = image_raw (world s) /\
    camera_info (world s') = camera_info (world s) /\
    frame_id (self s') = frame_id (self s) /\
    yaml_path (self s') = yaml_path (self s).
Proof.
  intros Hx.
  pose proof (handle_set_camera_info_run s request x Hx) as Hrun.
  pose proof (after_set_camera_info_heap request x s) as Hheap.
  pose proof (after_set_camera_info_self request x s) as Hself.
  destruct (after_set_camera_info_world request x s) as (_ & Him & Hci).
  destruct (patched_fields s x) as (Hk & Hd & Hr & Hp & Hm & _ & Hf).
  destruct (handle_set_camera_info_returns s request) as (s' & resp & Hret).
  rewrite Hret in Hrun.
  assert (Hs' : s' = fst (after_set_camera_info request x s)) by (by rewrite <- Hrun).
  exists s', resp, (patched s x). subst s'.
  split; [exact Hret|]. rewrite Hself, Hheap, Him, Hci.
  split; [reflexivity|]. split; [apply lookup_insert_eq|].
  repeat (split; [assumption|]).
  split. { intros Hne. rewrite Hf. unfold py_or.
           apply truthy_string_true in Hne. by rewrite Hne. }
  split. { intros He. rewrite Hf, He. reflexivity. }
  split. { intros l Hne. by apply lookup_insert_ne. }
  repeat split.
Qed.

Lemma set_camera_info_takes_request_as_is_witness :
  exists s' resp y,
    handle_set_camera_info 1%nat (serving locked_calib "/calib/camera.yaml" odd_request)
      = (s', Ok resp) /\
    heap (world s') !! 1%nat = Some y /\
    sensor_msgs.k y = [PFloat 500; PInt 0] /\
    sensor_msgs.frame_id (sensor_msgs.header y) = "left_camera" /\
    heap (world s') !! 0%nat = Some calibrated.
Proof.
  destruct (set_camera_info_takes_request_as_is
              (serving locked_calib "/calib/camera.yaml" odd_request) 1%nat odd_request)
    as (s' & resp & y & Hrun & _ & Hy & Hk & _ & _ & _ & _ & Hf & _ & Hother & _);
    [vm_compute; reflexivity|].
  exists s', resp, y. repeat (split; [assumption|]).
  split; [apply Hf; discriminate|].
  rewrite Hother; [vm_compute; reflexivity | discriminate].
Defined.

Section SetFurther.
Context `{Builtins}.

Lemma set_success_stored
    (s s' : System) (request : loc) (x : CameraInfo) (resp : Response) :
  heap (world s) !! request = Some x ->
  handle_set_camera_info request s = (s', Ok resp) ->
  success resp = true ->
  status_message resp = "Camera info saved to " +:+ yaml_path (self s) /\
  exists y,
    load_camera_info_from_yaml (yaml_path (self s)) (fs (world s')) = Ok y /\
    sensor_msgs.width y = sensor_msgs.width (patched s x) /\
    sensor_msgs.height y = sensor_msgs.height (patched s x) /\
    sensor_msgs.k y = sensor_msgs.k x /\
    sensor_msgs.d y = sensor_msgs.d x /\
    sensor_msgs.distortion_model y = sensor_msgs.distortion_model x /\
    (namespace_or_name (ctx (self s)) <> EmptyString ->
     sensor_msgs.frame_id (sensor_msgs.header y) = namespace_or_name (ctx (self s))).
Proof.
  intros Hx Hrun Hok.
  rewrite (handle_set_camera_info_run s request x Hx) in Hrun.
  unfold after_set_camera_info in Hrun.
  destruct (patched_fields s x) as (Hk & Hd & _ & _ & Hm & _).
  destruct (save_camera_info_to_yaml _ _ _ _) as [fs' [pth|e]] eqn:Hsave;
    injection Hrun as <- <-; [|discriminate Hok].
  split; [reflexivity|].
  exists (stored_view (patched s x) (namespace_or_name (ctx (self s)))).
  cbn [world fs].
  split; [by apply (load_after_save _ _ _ _ _ _ Hsave)|].
  unfold stored_view. msg_fields.
  repeat (split; [first [reflexivity | assumption]|]).
  intros Hne. unfold py_or. apply truthy_string_true in Hne. rewrite Hne.
  cbn [truthy]. by rewrite Hne.
Qed.

(** X6: a response with [success] true means the record is on disk:
    its message names the storage path, and a load of that path returns
    the record as installed, with its width, height, K, D and distortion
    model, under the camera name the node saved it with. *)
Theorem set_camera_info_success_is_persisted
    (s s' : System) (request : loc) (x : CameraInfo) (resp : Response) :
  heap (world s) !! request = Some x ->
  handle_set_camera_info request s = (s', Ok resp) ->
  success resp = true ->
  status_message resp = "Camera info saved to " +:+ yaml_path (self s) /\
  exists y,
    load_camera_info_from_yaml (yaml_path (self s)) (fs (world s')) = Ok y /\
    sensor_msgs.width y = sensor_msgs.width (patched s x) /\
    sensor_msgs.height y = sensor_msgs.height (patched s x) /\
    sensor_msgs.k y = sensor_msgs.k x /\
    sensor_msgs.d y = sensor_msgs.d x /\
    sensor_msgs.distortion_model y = sensor_msgs.distortion_model x /\
    (namespace_or_name (ctx (self s)) <> EmptyString ->
     sensor_msgs.frame_id (sensor_msgs.header y) = namespace_or_name (ctx (self s))).
Proof. apply set_success_stored. Qed.

(** X7: after a set-request answered with success, a node started
    again on the same storage path comes up with the saved record and
    not the default one: width, height, K, D and distortion model are
    those installed by the request, while the frame label is the camera
    name the file was saved under, the node's namespace or name. *)
Theorem restart_after_set_camera_info
    (s s' : System) (request : loc) (x : CameraInfo) (resp : Response)
    (c : context) (params : parameters) :
  heap (world s) !! request = Some x ->
  handle_set_camera_info request s = (s', Ok resp) ->
  success resp = true ->
  isOpened (cap (world s)) = true ->
  PrimFloat.eqb (param_frame_rate params) 0%float = false ->
  resolve_yaml_path c (param_camera_info_url params) = yaml_path (self s) ->
  namespace_or_name (ctx (self s)) <> EmptyString ->
  exists w'' node l y,
    __init__ c params (world s') = (w'', Ok node) /\
    camera_info_msg node = Some l /\
    heap w'' !! l = Some y /\
    sensor_msgs.width y = sensor_msgs.width (patched s x) /\
    sensor_msgs.height y = sensor_msgs.height (patched s x) /\
    sensor_msgs.k y = sensor_msgs.k x /\
    sensor_msgs.d y = sensor_msgs.d x /\
    sensor_msgs.distortion_model y = sensor_msgs.distortion_model x /\
    sensor_msgs.frame_id (sensor_msgs.header y) = namespace_or_name (ctx (self s)).
Proof.
  intros Hx Hrun Hok Hopen Hfps Hpath Hname.
  destruct (set_success_stored s s' request x resp Hx Hrun Hok)
    as (_ & v & Hload & Hw & Hh & Hk & Hd & Hm & Hf).
  specialize (Hf Hname).
  assert (Hcap : cap (world s') = cap (world s)).
  { rewrite (handle_set_camera_info_run s request x Hx) in Hrun.
    destruct (after_set_camera_info_world request x s) as (Hc & _).
    by rewrite Hrun in Hc. }
  rewrite <- Hpath in Hload. rewrite <- Hcap in Hopen.
  destruct (init_loaded c params (world s') v Hopen Hfps Hload)
    as (w'' & node & l & y & Hinit & Hcur & _ & Hy & Hkeep & _).
  assert (Hyv : y = v).
  { apply Hkeep. rewrite Hf. exact Hname. }
  subst y. exists w'', node, l, v.
  repeat (split; [assumption|]). exact Hf.
Qed.

End SetFurther.

Lemma set_camera_info_success_is_persisted_witness :
  exists y,
    @load_camera_info_from_yaml strict_ints "/calib/camera.yaml"
      (fs (world (fst (handle_set_camera_info 1%nat
                         (serving no_files "/calib/camera.yaml" odd_request))))) = Ok y /\
    sensor_msgs.k y = [PFloat 500; PInt 0] /\
    sensor_msgs.frame_id (sensor_msgs.header y) = "simple_camera_node".
Proof.
  destruct (@set_camera_info_success_is_persisted strict_ints
              (serving no_files "/calib/camera.yaml" odd_request)
              (fst (handle_set_camera_info 1%nat
                      (serving no_files "/calib/camera.yaml" odd_request)))
              1%nat odd_request
              {| success := true;
                 status_message := "Camera info saved to /calib/camera.yaml" |})
    as (_ & y & Hload & _ & _ & Hk & _ & _ & Hf); try (vm_compute; reflexivity).
  exists y. split; [exact Hload|]. split; [exact Hk|].
  apply Hf. vm_compute. discriminate.
Defined.

Lemma restart_after_set_camera_info_witness :
  exists w'' node l y,
    @__init__ strict_ints root_context calib_parameters
      (world (fst (handle_set_camera_info 1%nat
                     (serving no_files "/calib/camera.yaml" odd_request))))
      = (w'', Ok node) /\
    camera_info_msg node = Some l /\
    heap w'' !! l = Some y /\
    sensor_msgs.width y = 640 /\
    sensor_msgs.k y = [PFloat 500; PInt 0] /\
    sensor_msgs.frame_id (sensor_msgs.header y) = "simple_camera_node".
Proof.
  destruct (@restart_after_set_camera_info strict_ints
              (serving no_files "/calib/camera.yaml" odd_request)
              (fst (handle_set_camera_info 1%nat
                      (serving no_files "/calib/camera.yaml" odd_request)))
              1%nat odd_request
              {| success := true;
                 status_message := "Camera info saved to /calib/camera.yaml" |}
              root_context calib_parameters)
    as (w'' & node & l & y & Hrun & Hcur & Hy & Hw & _ & Hk & _ & _ & Hf);
    try (vm_compute; reflexivity); [vm_compute; discriminate|].
  exists w'', node, l, y. repeat (split; [assumption|]). exact Hf.
Defined.

(** ** Loading, in full *)

Section LoadFurther.
Context `{Builtins}.

Ltac step_load H :=
  match type of H with
  | rbind ?r _ = Ok _ =>
      let E := fresh "E" in
      destruct r eqn:E; cbn [rbind] in H; [|discriminate H]
  end.

(** X8: a key that is missing from the mapping gets its default: width
    and height 0, K, D, R and P empty, the distortion model plumb_bob and
    the frame label empty. The other keys do not matter to it. *)
Theorem load_defaults_for_missing_keys
    (fs0 : filesystem) (path : string) (kv : list (string * pyval)) (y : CameraInfo) :
  lookup_path fs0 path = Some (File (Parsed (VDict kv))) ->
  load_camera_info_from_yaml path fs0 = Ok y ->
  (assoc "image_width" kv = None -> sensor_msgs.width y = 0) /\
  (assoc "image_height" kv = None -> sensor_msgs.height y = 0) /\
  (assoc "camera_matrix" kv = None -> sensor_msgs.k y = []) /\
  (assoc "distortion_coefficients" kv = None -> sensor_msgs.d y = []) /\
  (assoc "rectification_matrix" kv = None -> sensor_msgs.r y = []) /\
  (assoc "projection_matrix" kv = None -> sensor_msgs.p y = []) /\
  (assoc "distortion_model" kv = None -> sensor_msgs.distortion_model y = "plumb_bob") /\
  (assoc "camera_name" kv = None ->
   sensor_msgs.frame_id (sensor_msgs.header y) = EmptyString).
Proof.
  intros Hl. unfold load_camera_info_from_yaml, path_exists, open_r, matrix_data.
  rewrite Hl. cbn [negb yaml_safe_load rbind py_get].
  intros Hload.
  repeat step_load Hload.
  injection Hload as <-. msg_fields.
  repeat split; intros Hmiss; rewrite Hmiss in *; by simplify_eq/=.
Qed.

(** X9: only a mapping loads. A directory at the path, a file that does
    not parse, and a file whose document is not a mapping, an empty file
    among them, all make the load raise. *)
Theorem load_needs_a_mapping (fs0 : filesystem) (path : string) (n : fnode) :
  lookup_path fs0 path = Some n ->
  match n with
  | Dir => load_camera_info_from_yaml path fs0 = Raise (EISDIR path)
  | File Unparseable =>
      exists msg, load_camera_info_from_yaml path fs0 = Raise (Exn YAMLError msg)
  | File (Parsed (VDict _)) => True
  | File (Parsed v) =>
      load_camera_info_from_yaml path fs0 =
        Raise (Exn AttributeError
                 ("'" +:+ type_name v +:+ "' object has no attribute 'get'"))
  end.
Proof.
  intros Hl. unfold load_camera_info_from_yaml, path_exists, open_r.
  rewrite Hl. cbn [negb].
  destruct n as [|[|v]]; [reflexivity | eexists; reflexivity |].
  destruct v; cbn [rbind yaml_safe_load py_get]; first [reflexivity | exact I].
Qed.

End LoadFurther.

Lemma load_defaults_for_missing_keys_witness :
  exists y,
    @load_camera_info_from_yaml strict_ints "/calib/camera.yaml" calib_empty_mapping = Ok y /\
    sensor_msgs.width y = 0 /\
    sensor_msgs.k y = [] /\
    sensor_msgs.distortion_model y = "plumb_bob" /\
    sensor_msgs.frame_id (sensor_msgs.header y) = EmptyString.
Proof.
  destruct (@load_camera_info_from_yaml strict_ints "/calib/camera.yaml" calib_empty_mapping)
    as [y|e] eqn:Hload; [|vm_compute in Hload; discriminate Hload].
  destruct (@load_defaults_for_missing_keys strict_ints calib_empty_mapping
              "/calib/camera.yaml" [] y)
    as (Hw & _ & Hk & _ & _ & _ & Hm & Hf); [vm_compute; reflexivity | exact Hload |].
  exists y. split; [reflexivity|].
  split; [by apply Hw|]. split; [by apply Hk|]. split; [by apply Hm | by apply Hf].
Defined.

Lemma load_needs_a_mapping_witness :
  @load_camera_info_from_yaml strict_ints "/calib/camera.yaml" calib_empty_file =
    Raise (Exn AttributeError "'NoneType' object has no attribute 'get'").
Proof.
  apply (@load_needs_a_mapping strict_ints calib_empty_file "/calib/camera.yaml"
           (File (Parsed VNone))).
  vm_compute. reflexivity.
Defined.

(** ** Saving, in full *)






Lemma stored_view_again (ci : CameraInfo) (name : string) :
  save_data (stored_view ci name) EmptyString = save_data ci name.
Proof.
  unfold save_data, stored_view, py_or. msg_fields.
  cbn [truthy string_truthy].
  assert (Hname :
    forall a : string,
      (if truthy (if truthy a then a else "camera")
       then (if truthy a then a else "camera") else "camera")
      = (if truthy a then a else "camera")).
  { intros a. destruct a; reflexivity. }
  rewrite Hname.
  destruct (sensor_msgs.r ci), (sensor_msgs.p ci); reflexivity.
Qed.

Section SaveFurther.
Context `{Builtins}.

(** X11: what a load returns is stable under saving: the record loaded
    from a saved file, saved again to the path under no camera name,
    writes the same document, and the load after that returns the same
    record. *)
Theorem resave_of_loaded_is_stable
    (x y : CameraInfo) (path name : string) (fs0 fs1 fs2 : filesystem) (p1 p2 : string) :
  save_camera_info_to_yaml x path name fs0 = (fs1, Ok p1) ->
  load_camera_info_from_yaml path fs1 = Ok y ->
  save_camera_info_to_yaml y path EmptyString fs1 = (fs2, Ok p2) ->
  lookup_path fs2 path = lookup_path fs1 path /\
  load_camera_info_from_yaml path fs2 = Ok y.
Proof.
  intros Hs1 Hl1 Hs2.
  pose proof (load_after_save _ _ _ _ _ _ Hs1) as Hview.
  rewrite Hview in Hl1. injection Hl1 as <-.
  apply save_ok_stored in Hs1 as [_ Hdoc1].
  apply save_ok_stored in Hs2 as [_ Hdoc2].
  rewrite stored_view_again in Hdoc2.
  split; [congruence | by apply load_of_saved].
Qed.

End SaveFurther.

Lemma resave_of_loaded_is_stable_witness :
  exists y,
    @load_camera_info_from_yaml strict_ints "/calib/camera.yaml"
      (fst (save_camera_info_to_yaml odd_request "/calib/camera.yaml" "left" no_files))
      = Ok y /\
    @load_camera_info_from_yaml strict_ints "/calib/camera.yaml"
      (fst (save_camera_info_to_yaml y "/calib/camera.yaml" EmptyString
              (fst (save_camera_info_to_yaml odd_request "/calib/camera.yaml" "left"
                      no_files))))
      = Ok y.
Proof.
  exists (stored_view odd_request "left"). split; [vm_compute; reflexivity|].
  apply (@resave_of_loaded_is_stable strict_ints odd_request (stored_view odd_request "left")
           "/calib/camera.yaml" "left" no_files
           (fst (save_camera_info_to_yaml odd_request "/calib/camera.yaml" "left" no_files))
           (fst (save_camera_info_to_yaml (stored_view odd_request "left")
                   "/calib/camera.yaml" EmptyString
                   (fst (save_camera_info_to_yaml odd_request "/calib/camera.yaml" "left"
                           no_files))))
           "/calib/camera.yaml" "/calib/camera.yaml");
    vm_compute; reflexivity.
Defined.

(** ** The timer, in full *)

(** X12: on a frame, one tick publishes one image and one camera info
    that go together: both carry the capture time and the node's frame
    label, the image holds the frame as bgr8, and the tick writes no
    file and logs nothing. *)
Theorem timer_callback_publishes_pair
    (s : System) (l : loc) (x : CameraInfo) (frame : sensor_msgs.frame) (now : Time) :
  camera_info_msg (self s) = Some l ->
  heap (world s) !! l = Some x ->
  exists s' img c y,
    timer_callback (Some frame) now s = (s', Ok tt) /\
    image_raw (world s') = img :: image_raw (world s) /\
    camera_info (world s') = (c, y) :: camera_info (world s) /\
    sensor_msgs.data img = frame /\
    sensor_msgs.encoding img = "bgr8" /\
    sensor_msgs.stamp (sensor_msgs.image_header img) = now /\
    sensor_msgs.stamp (sensor_msgs.header y) = now /\
    sensor_msgs.frame_id (sensor_msgs.image_header img) = frame_id (self s) /\
    sensor_msgs.frame_id (sensor_msgs.header y) = frame_id (self s) /\
    fs (world s') = fs (world s) /\
    logs (world s') = logs (world s).
Proof.
  intros Hl Hx. do 4 eexists.
  split; [by apply (timer_callback_run s l x)|].
  unfold after_timer_callback, stamped. cbn [world image_raw camera_info fs logs].
  repeat split.
Qed.

Lemma timer_callback_publishes_pair_witness :
  exists s' img c y,
    timer_callback (Some [7; 8; 9]) {| sec := 5; nanosec := 6 |}
      (serving no_files "/calib/camera.yaml" height_only) = (s', Ok tt) /\
    image_raw (world s') = [img] /\
    camera_info (world s') = [(c, y)] /\
    sensor_msgs.data img = [7; 8; 9] /\
    sensor_msgs.stamp (sensor_msgs.image_header img) = sensor_msgs.stamp (sensor_msgs.header y).
Proof.
  destruct (timer_callback_publishes_pair (serving no_files "/calib/camera.yaml" height_only)
              0%nat calibrated [7; 8; 9] {| sec := 5; nanosec := 6 |})
    as (s' & img & c & y & Hrun & Him & Hci & Hdata & _ & Hst1 & Hst2 & _);
    try (vm_compute; reflexivity).
  exists s', img, c, y. repeat (split; [assumption|]). congruence.
Defined.

(** ** The storage path *)

Lemma has_sep_app (a b : string) : has_sep (a +:+ b) = has_sep a || has_sep b.
Proof.
  induction a as [|c a IH]; [reflexivity|].
  simpl. rewrite IH. apply orb_assoc.
Qed.

Lemma ends_with_sep_has_sep (a : string) : ends_with_sep a = true -> has_sep a = true.
Proof.
  induction a as [|c a IH]; [discriminate|]. cbn [ends_with_sep has_sep].
  destruct a as [|c' a'].
  - intros ->. reflexivity.
  - intros Hend. rewrite (IH Hend). apply orb_true_r.
Qed.

Lemma posix_join_has_sep (a b : string) :
  a <> EmptyString -> has_sep (posix_join a b) = true.
Proof.
  intros Ha. unfold posix_join.
  destruct (String.prefix "/" b) eqn:Hb.
  - destruct b as [|c b']; [discriminate Hb|]. cbn [String.prefix] in Hb.
    cbn [has_sep]. unfold is_sep.
    destruct (ascii_dec "/" c) as [<-|Hne]; [reflexivity|].
    destruct (Ascii.eqb_spec "/"%char c); [contradiction | congruence].
  - apply truthy_string_true in Ha. rewrite Ha. cbn [negb orb].
    destruct (ends_with_sep a) eqn:Hend.
    + rewrite has_sep_app, (ends_with_sep_has_sep a Hend). reflexivity.
    + rewrite !has_sep_app. cbn [has_sep is_sep]. apply orb_true_r.
Qed.

Lemma posix_join_nonempty (a b : string) : b <> EmptyString -> posix_join a b <> EmptyString.
Proof.
  intros Hb. unfold posix_join.
  destruct (String.prefix "/" b); [exact Hb|].
  destruct (negb (truthy a) || ends_with_sep a);
    destruct a; cbn [String.app]; first [exact Hb | discriminate].
Qed.

Lemma has_sep_cut (p : string) : has_sep p = true -> cut_after_last_sep p <> None.
Proof.
  induction p as [|c p IH]; [discriminate|]. cbn [has_sep cut_after_last_sep].
  destruct (cut_after_last_sep p) as [[h t]|]; [discriminate|].
  destruct (is_sep c); [discriminate|]. cbn [orb]. intros Hp. by apply IH in Hp.
Qed.

Lemma rstrip_sep_nonempty (h : string) : all_sep h = false -> rstrip_sep h <> EmptyString.
Proof.
  induction h as [|c s IH]; [discriminate|].
  cbn [all_sep rstrip_sep]. intros Hall.
  destruct (rstrip_sep s) as [|c' s'] eqn:Hs; [|discriminate].
  destruct (is_sep c) eqn:Hc; [|discriminate].
  cbn [andb] in Hall. exfalso. by apply IH.
Qed.

Lemma has_sep_dirname (p : string) : has_sep p = true -> dirname p <> EmptyString.
Proof.
  intros Hp. apply has_sep_cut in Hp. unfold dirname, posix_split.
  destruct (cut_after_last_sep p) as [[h t]|] eqn:Hcut; [|contradiction].
  cbn [fst].
  assert (Hh : h <> EmptyString).
  { clear Hp. revert h t Hcut. induction p as [|c p IH]; intros h t; [discriminate|].
    cbn [cut_after_last_sep].
    destruct (cut_after_last_sep p) as [[h' t']|].
    - intros [= <- <-]. discriminate.
    - destruct (is_sep c); [intros [= <- <-]; discriminate | discriminate]. }
  apply truthy_string_true in Hh as Ht. rewrite Ht. cbn [andb].
  destruct (all_sep h) eqn:Hall; cbn [negb]; [exact Hh | by apply rstrip_sep_nonempty].
Qed.

(** X13: the storage path a node chooses when it is given no
    [camera_info_url] always has a directory part, whatever the home
    directory, the namespace and the node name are: the directories that
    a save makes for it are never asked of [os.makedirs] as the empty
    string. *)
Theorem default_yaml_path_has_directory (c : context) :
  dirname (resolve_yaml_path c EmptyString) <> EmptyString.
Proof.
  apply has_sep_dirname. unfold resolve_yaml_path.
  cbn [String.prefix truthy string_truthy].
  apply posix_join_has_sep, posix_join_nonempty. discriminate.
Qed.

(** ** Serving a request twice *)

Lemma py_or_Z_idem (a b : Z) : py_or a (py_or a b) = py_or a b.
Proof. unfold py_or. destruct (truthy a); reflexivity. Qed.

Lemma fill_size_idem (c : capture) (x : CameraInfo) :
  fill_size c (fill_size c x) = fill_size c x.
Proof.
  unfold fill_size.
  destruct (negb (truthy (sensor_msgs.width x)) || negb (truthy (sensor_msgs.height x)))
    eqn:Hx; [|by rewrite Hx].
  clear Hx. msg_fields. rewrite !py_or_Z_idem.
  destruct (negb _ || negb _); reflexivity.
Qed.

Lemma fill_frame_id_idem (f : string) (x : CameraInfo) :
  fill_frame_id f (fill_frame_id f x) = fill_frame_id f x.
Proof.
  unfold fill_frame_id.
  destruct (negb (truthy (sensor_msgs.frame_id (sensor_msgs.header x)))) eqn:Hx;
    [|by rewrite Hx].
  clear Hx. msg_fields. destruct (negb (truthy f)); reflexivity.
Qed.

Lemma fill_frame_id_size (f : string) (c : capture) (x : CameraInfo) :
  fill_frame_id f (fill_size c x) = fill_size c (fill_frame_id f x).
Proof.
  unfold fill_frame_id, fill_size.
  destruct (negb (truthy (sensor_msgs.width x)) || negb (truthy (sensor_msgs.height x)))
    eqn:Hs; msg_fields;
    destruct (negb (truthy (sensor_msgs.frame_id (sensor_msgs.header x))));
    msg_fields; rewrite ?Hs; reflexivity.
Qed.

(** X14: serving a request object a second time, the device reporting
    what it did, leaves the record as the first time left it: the two
    fills and the installation happen once for all. *)
Theorem set_camera_info_twice (s : System) (request : loc) (x : CameraInfo) :
  heap (world s) !! request = Some x ->
  heap (world (fst (handle_set_camera_info request
                      (fst (handle_set_camera_info request s))))) =
    heap (world (fst (handle_set_camera_info request s))) /\
  self (fst (handle_set_camera_info request
               (fst (handle_set_camera_info request s)))) =
    self (fst (handle_set_camera_info request s)).
Proof.
  intros Hx.
  rewrite (handle_set_camera_info_run s request x Hx).
  set (s1 := fst (after_set_camera_info request x s)).
  assert (Hh1 : heap (world s1) = <[request := patched s x]> (heap (world s)))
    by apply after_set_camera_info_heap.
  assert (Hs1 : self s1 = with_camera_info_msg (Some request) (self s))
    by apply after_set_camera_info_self.
  assert (Hc1 : cap (world s1) = cap (world s))
    by apply after_set_camera_info_world.
  assert (Hx1 : heap (world s1) !! request = Some (patched s x)).
  { rewrite Hh1. apply lookup_insert_eq. }
  rewrite (handle_set_camera_info_run s1 request _ Hx1).
  rewrite after_set_camera_info_heap, after_set_camera_info_self.
  assert (Hp : patched s1 (patched s x) = patched s x).
  { unfold patched. rewrite Hc1, Hs1. cbn [frame_id with_camera_info_msg].
    rewrite fill_frame_id_size, fill_frame_id_idem. apply fill_size_idem. }
  rewrite Hp, Hh1, Hs1. split; [apply insert_insert_eq | reflexivity].
Qed.

Lemma set_camera_info_twice_witness :
  heap (world (fst (handle_set_camera_info 1%nat
                      (fst (handle_set_camera_info 1%nat
                              (serving no_files "/calib/camera.yaml" height_only))))))
    !! 1%nat =
  Some (sensor_msgs.set_height 720
          (sensor_msgs.set_width 1280
             (sensor_msgs.set_frame_id "camera_link" height_only))).
Proof.
  destruct (set_camera_info_twice (serving no_files "/calib/camera.yaml" height_only)
              1%nat height_only) as [Hheap _]; [vm_compute; reflexivity|].
  rewrite Hheap. vm_compute. reflexivity.
Defined.

(** ** The node's settings *)




Section SettingsFurther.
Context `{Builtins}.



End SettingsFurther.

